(** * ESP32_AutoOTA: a shallow embedding of the update agent

    The development follows [src/ESP32_AutoOTA.cpp] and
    [include/ESP32_AutoOTA.h]: the object's fields are a record, each
    method is a function on that record, and the calls into the Arduino
    core (HTTP client, flash writer, GPIO, FreeRTOS, serial port) are
    recorded as events of a trace while their results come from an
    explicit environment. *)

From Stdlib Require Import ZArith Ascii String Lia.
From Stdlib Require DecimalString.
From stdpp Require Import base tactics list strings.

Local Open Scope Z_scope.

(** ** Machine integers

    The ESP32 is an ILP32 target: [unsigned long], [size_t] and
    [uint32_t] are 32 bits wide, [uint8_t] is 8 bits wide. Unsigned
    arithmetic wraps. *)

Definition wrap (bits : Z) (z : Z) : Z := z mod 2 ^ bits.
Definition uint8 (z : Z) : Z := wrap 8 z.
Definition uint32 (z : Z) : Z := wrap 32 z.

(** Arduino.h: [#define constrain(amt,low,high)
    ((amt)<(low)?(low):((amt)>(high)?(high):(amt)))]. *)
Definition constrain (amt low high : Z) : Z :=
  if amt <? low then low else if high <? amt then high else amt.

(** ** C strings and fixed character buffers *)

Definition NUL : ascii := Ascii.zero.

(** The characters a [const char*] denotes: everything before the first
    NUL (the end of the list stands for the terminator of a literal). *)
Fixpoint c_str (mem : list ascii) : list ascii :=
  match mem with
  | [] => []
  | c :: rest => if Ascii.eqb c NUL then [] else c :: c_str rest
  end.

Definition strlen (mem : list ascii) : Z := Z.of_nat (length (c_str mem)).

(** What [strncpy] writes into the first [n] bytes of its destination:
    the source up to its terminator, then NUL padding. *)
Fixpoint strncpy_image (src : list ascii) (n : nat) : list ascii :=
  match n with
  | O => []
  | S n' =>
      match src with
      | [] => NUL :: strncpy_image [] n'
      | c :: rest =>
          if Ascii.eqb c NUL then NUL :: strncpy_image [] n'
          else c :: strncpy_image rest n'
      end
  end.

Definition strncpy (dst src : list ascii) (n : nat) : list ascii :=
  strncpy_image src n ++ drop n dst.

(** [strcpy] writes the source and its terminator. *)
Definition strcpy (dst src : list ascii) : list ascii :=
  c_str src ++ NUL :: drop (S (length (c_str src))) dst.

(** A [char buf[n]] whose contents are whatever the memory held. *)
Definition array_of (n : nat) (raw : list ascii) : list ascii :=
  take n (raw ++ replicate n NUL).

Definition lit (s : string) : list ascii := list_ascii_of_string s.

(** ** The object *)

(** Declared sizes of the character arrays of the class. *)
Definition sizeof_firmwareURL : nat := 256.
Definition sizeof_versionURL : nat := 256.
Definition sizeof_currentVersion : nat := 32.
Definition sizeof_lastError : nat := 128.

Definition DEFAULT_MIN_RANDOM_DELAY : Z := 60000.
Definition DEFAULT_MAX_RANDOM_DELAY : Z := 180000.
Definition DEFAULT_CHECK_INTERVAL : Z := 300000.
Definition DEFAULT_MAX_RETRIES : Z := 3.
Definition DEFAULT_STACK_SIZE : Z := 8192.
Definition DEFAULT_TASK_PRIORITY : Z := 1.

(** Function pointers and task handles are opaque tokens; [None] is
    [NULL]. *)
Definition fnptr : Type := nat.
Definition TaskHandle_t : Type := nat.

Record ESP32_AutoOTA : Type := mkOTA {
  (* Configuration *)
  _firmwareURL : list ascii;
  _versionURL : list ascii;
  _currentVersion : list ascii;
  _checkInterval : Z;
  _minRandomDelay : Z;
  _maxRandomDelay : Z;
  _staggeredRollout : bool;
  _rolloutPercentage : Z;
  _statusLED : Z;
  _maxRetries : Z;
  _debugMode : bool;
  (* State *)
  _isRunning : bool;
  _taskHandle : option TaskHandle_t;
  _lastCheckTime : Z;
  _retryCount : Z;
  _lastError : list ascii;
  _forceCheckFlag : bool;
  (* Callbacks *)
  _onUpdateStart : option fnptr;
  _onUpdateProgress : option fnptr;
  _onUpdateComplete : option fnptr;
  _onUpdateError : option fnptr;
  _onVersionCheck : option fnptr
}.

(** Field assignments. *)
Definition set_firmwareURL (v : list ascii) (o : ESP32_AutoOTA) :=
  let '(mkOTA a b c d e f g h i j k l m n p q r s t u w x) := o in
  mkOTA v b c d e f g h i j k l m n p q r s t u w x.
Definition set_versionURL (v : list ascii) (o : ESP32_AutoOTA) :=
  let '(mkOTA a b c d e f g h i j k l m n p q r s t u w x) := o in
  mkOTA a v c d e f g h i j k l m n p q r s t u w x.
Definition set_currentVersion (v : list ascii) (o : ESP32_AutoOTA) :=
  let '(mkOTA a b c d e f g h i j k l m n p q r s t u w x) := o in
  mkOTA a b v d e f g h i j k l m n p q r s t u w x.
Definition set_checkInterval (v : Z) (o : ESP32_AutoOTA) :=
  let '(mkOTA a b c d e f g h i j k l m n p q r s t u w x) := o in
  mkOTA a b c v e f g h i j k l m n p q r s t u w x.
Definition set_minRandomDelay (v : Z) (o : ESP32_AutoOTA) :=
  let '(mkOTA a b c d e f g h i j k l m n p q r s t u w x) := o in
  mkOTA a b c d v f g h i j k l m n p q r s t u w x.
Definition set_maxRandomDelay (v : Z) (o : ESP32_AutoOTA) :=
  let '(mkOTA a b c d e f g h i j k l m n p q r s t u w x) := o in
  mkOTA a b c d e v g h i j k l m n p q r s t u w x.
Definition set_staggeredRollout (v : bool) (o : ESP32_AutoOTA) :=
  let '(mkOTA a b c d e f g h i j k l m n p q r s t u w x) := o in
  mkOTA a b c d e f v h i j k l m n p q r s t u w x.
Definition set_rolloutPercentage (v : Z) (o : ESP32_AutoOTA) :=
  let '(mkOTA a b c d e f g h i j k l m n p q r s t u w x) := o in
  mkOTA a b c d e f g v i j k l m n p q r s t u w x.
Definition set_statusLED (v : Z) (o : ESP32_AutoOTA) :=
  let '(mkOTA a b c d e f g h i j k l m n p q r s t u w x) := o in
  mkOTA a b c d e f g h v j k l m n p q r s t u w x.
Definition set_maxRetries (v : Z) (o : ESP32_AutoOTA) :=
  let '(mkOTA a b c d e f g h i j k l m n p q r s t u w x) := o in
  mkOTA a b c d e f g h i v k l m n p q r s t u w x.
Definition set_debugMode (v : bool) (o : ESP32_AutoOTA) :=
  let '(mkOTA a b c d e f g h i j k l m n p q r s t u w x) := o in
  mkOTA a b c d e f g h i j v l m n p q r s t u w x.
Definition set_isRunning (v : bool) (o : ESP32_AutoOTA) :=
  let '(mkOTA a b c d e f g h i j k l m n p q r s t u w x) := o in
  mkOTA a b c d e f g h i j k v m n p q r s t u w x.
Definition set_taskHandle (v : option TaskHandle_t) (o : ESP32_AutoOTA) :=
  let '(mkOTA a b c d e f g h i j k l m n p q r s t u w x) := o in
  mkOTA a b c d e f g h i j k l v n p q r s t u w x.
Definition set_lastCheckTime (v : Z) (o : ESP32_AutoOTA) :=
  let '(mkOTA a b c d e f g h i j k l m n p q r s t u w x) := o in
  mkOTA a b c d e f g h i j k l m v p q r s t u w x.
Definition set_retryCount (v : Z) (o : ESP32_AutoOTA) :=
  let '(mkOTA a b c d e f g h i j k l m n p q r s t u w x) := o in
  mkOTA a b c d e f g h i j k l m n v q r s t u w x.
Definition set_lastError (v : list ascii) (o : ESP32_AutoOTA) :=
  let '(mkOTA a b c d e f g h i j k l m n p q r s t u w x) := o in
  mkOTA a b c d e f g h i j k l m n p v r s t u w x.
Definition set_forceCheckFlag (v : bool) (o : ESP32_AutoOTA) :=
  let '(mkOTA a b c d e f g h i j k l m n p q r s t u w x) := o in
  mkOTA a b c d e f g h i j k l m n p q v s t u w x.
Definition set_onUpdateStart (v : option fnptr) (o : ESP32_AutoOTA) :=
  let '(mkOTA a b c d e f g h i j k l m n p q r s t u w x) := o in
  mkOTA a b c d e f g h i j k l m n p q r v t u w x.
Definition set_onUpdateProgress (v : option fnptr) (o : ESP32_AutoOTA) :=
  let '(mkOTA a b c d e f g h i j k l m n p q r s t u w x) := o in
  mkOTA a b c d e f g h i j k l m n p q r s v u w x.
Definition set_onUpdateComplete (v : option fnptr) (o : ESP32_AutoOTA) :=
  let '(mkOTA a b c d e f g h i j k l m n p q r s t u w x) := o in
  mkOTA a b c d e f g h i j k l m n p q r s t v w x.
Definition set_onUpdateError (v : option fnptr) (o : ESP32_AutoOTA) :=
  let '(mkOTA a b c d e f g h i j k l m n p q r s t u w x) := o in
  mkOTA a b c d e f g h i j k l m n p q r s t u v x.
Definition set_onVersionCheck (v : option fnptr) (o : ESP32_AutoOTA) :=
  let '(mkOTA a b c d e f g h i j k l m n p q r s t u w x) := o in
  mkOTA a b c d e f g h i j k l m n p q r s t u w v.

(** ** Effects

    Every call that leaves the object is an event. *)

Inductive Event : Type :=
  | EvSerial (line : list ascii)            (* Serial.println *)
  | EvPinMode (pin : Z)                      (* pinMode(pin, OUTPUT) *)
  | EvDigitalWrite (pin : Z) (high : bool)
  | EvToggle (pin : Z)               (* digitalWrite(p, !digitalRead(p)) *)
  | EvDelay (ms : Z)
  | EvTaskDelay (ticks : Z)
  | EvTaskCreate (stack prio : Z)
  | EvTaskDelete (h : TaskHandle_t)
  | EvHttpGet (url : list ascii)             (* begin, no-cache headers, GET *)
  | EvHttpEnd
  | EvPerformUpdate                          (* entry of performUpdate *)
  | EvUpdateBegin (size : Z)
  | EvStreamRead (len : Z)                   (* stream.readBytes *)
  | EvUpdateWrite (len : Z)
  | EvUpdateEnd
  | EvRestart                                (* ESP.restart() *)
  | EvOnVersionCheck (f : fnptr)
  | EvOnUpdateStart (f : fnptr)
  | EvOnUpdateProgress (f : fnptr) (written total : Z)
  | EvOnUpdateComplete (f : fnptr)
  | EvOnUpdateError (f : fnptr) (msg : list ascii).

(** A method body: it reads and writes the object and appends events. *)
Definition OTA (A : Type) : Type :=
  ESP32_AutoOTA -> A * ESP32_AutoOTA * list Event.

Definition ret {A} (a : A) : OTA A := fun o => (a, o, []).

Definition bind {A B} (m : OTA A) (k : A -> OTA B) : OTA B :=
  fun o =>
    let '(a, o1, t1) := m o in
    let '(b, o2, t2) := k a o1 in
    (b, o2, t1 ++ t2).

Definition emit (e : Event) : OTA unit := fun o => (tt, o, [e]).
Definition this : OTA ESP32_AutoOTA := fun o => (o, o, []).
Definition assign (f : ESP32_AutoOTA -> ESP32_AutoOTA) : OTA unit :=
  fun o => (tt, f o, []).
Definition when (b : bool) (m : OTA unit) : OTA unit :=
  if b then m else ret tt.

Declare Scope ota_scope.
Delimit Scope ota_scope with ota.
Notation "x <- c ;; k" := (bind c (fun x => k))
  (at level 100, c at next level, k at level 200, right associativity)
  : ota_scope.
Notation "c ;; k" := (bind c (fun _ => k))
  (at level 100, k at level 200, right associativity) : ota_scope.
Local Open Scope ota_scope.

Definition result {A} (r : A * ESP32_AutoOTA * list Event) : A := fst (fst r).
Definition object {A} (r : A * ESP32_AutoOTA * list Event) : ESP32_AutoOTA :=
  snd (fst r).
Definition trace {A} (r : A * ESP32_AutoOTA * list Event) : list Event := snd r.

(** ** Text formatting and the Arduino [String] *)

Definition int32 (z : Z) : Z := (z + 2 ^ 31) mod 2 ^ 32 - 2 ^ 31.

(** [%d] and [%lu] conversions. *)
Definition fmt_d (z : Z) : list ascii :=
  lit (DecimalString.NilZero.string_of_int (Z.to_int (int32 z))).
Definition fmt_lu (z : Z) : list ascii :=
  lit (DecimalString.NilZero.string_of_int (Z.to_int (uint32 z))).

(** [snprintf(buf, size, ...)] keeps at most [size - 1] characters. *)
Definition snprintf (size : nat) (rendered : list ascii) : list ascii :=
  take (size - 1)%nat rendered.

(** [isspace] in the C locale: space, and HT LF VT FF CR. *)
Definition isspace (c : ascii) : bool :=
  let n := Z.of_N (N_of_ascii c) in
  (n =? 32) || ((9 <=? n) && (n <=? 13)).

Fixpoint skip_space (s : list ascii) : list ascii :=
  match s with
  | [] => []
  | c :: rest => if isspace c then skip_space rest else s
  end.

(** [String::trim()]: whitespace is removed at both ends. *)
Definition String_trim (s : list ascii) : list ascii :=
  reverse (skip_space (reverse (skip_space s))).

(** [String::equals] against a C string is [strcmp] on the buffer of
    the [String]: both sides are read up to their first NUL, also when
    the [String] holds a NUL taken over from the body of a reply. *)
Definition String_equals (s cstr : list ascii) : bool :=
  bool_decide (c_str s = c_str cstr).

(** ** The environment of a run *)

Definition HTTP_CODE_OK : Z := 200.
Definition portTICK_PERIOD_MS : Z := 1.

(** Reply of the version server: [http.GET()] and [http.getString()]. *)
Record VersionReply : Type := {
  vr_code : Z;
  vr_body : list ascii
}.

(** One turn of the copy loop in which [http.connected()] holds. *)
Record StreamTick : Type := {
  tk_available : Z;      (* stream.available() *)
  tk_readBytes : Z;      (* stream.readBytes(buffer, bytesToRead) *)
  tk_written : Z         (* Update.write(buffer, bytesRead) *)
}.

(** Reply of the firmware server and of the flash writer. When
    [fr_stream] is used up the connection is closed. *)
Record FirmwareReply : Type := {
  fr_code : Z;           (* http.GET() *)
  fr_size : Z;           (* http.getSize() *)
  fr_canBegin : bool;    (* Update.begin(contentLength) *)
  fr_stream : list StreamTick;
  fr_end : bool;         (* Update.end() *)
  fr_isFinished : bool;  (* Update.isFinished() *)
  fr_getError : Z        (* Update.getError() *)
}.

(** What one check sees of the world. *)
Record CheckEnv : Type := {
  ce_mac : list Byte.byte;       (* WiFi.macAddress(mac) *)
  ce_version : VersionReply;
  ce_firmware : FirmwareReply
}.

(** What one turn of the task loop sees of the world. *)
Record LoopEnv : Type := {
  le_wifi : bool;        (* WiFi.status() == WL_CONNECTED *)
  le_millis : Z;         (* millis() in the loop condition *)
  le_check : CheckEnv;
  le_millis_after : Z;   (* millis() after the check *)
  le_random : Z          (* raw draw behind random(-variation, variation) *)
}.

(** Arduino [random(howsmall, howbig)] over a raw draw. *)
Definition random (draw howsmall howbig : Z) : Z :=
  if howbig <=? howsmall then howsmall
  else draw mod (howbig - howsmall) + howsmall.

(** ** Construction and configuration *)

(** The constructor. Apart from what it writes, the arrays hold what the
    memory held before ([raw_*]). *)
Definition ESP32_AutoOTA_new (raw_fw raw_ver raw_cur raw_err : list ascii)
  : ESP32_AutoOTA :=
  {| _firmwareURL := <[0%nat := NUL]> (array_of sizeof_firmwareURL raw_fw);
     _versionURL := <[0%nat := NUL]> (array_of sizeof_versionURL raw_ver);
     _currentVersion :=
       strcpy (array_of sizeof_currentVersion raw_cur) (lit "0.0.0");
     _checkInterval := DEFAULT_CHECK_INTERVAL;
     _minRandomDelay := DEFAULT_MIN_RANDOM_DELAY;
     _maxRandomDelay := DEFAULT_MAX_RANDOM_DELAY;
     _staggeredRollout := false;
     _rolloutPercentage := 50;
     _statusLED := -1;
     _maxRetries := DEFAULT_MAX_RETRIES;
     _debugMode := true;
     _isRunning := false;
     _taskHandle := None;
     _lastCheckTime := 0;
     _retryCount := 0;
     _lastError := <[0%nat := NUL]> (array_of sizeof_lastError raw_err);
     _forceCheckFlag := false;
     _onUpdateStart := None;
     _onUpdateProgress := None;
     _onUpdateComplete := None;
     _onUpdateError := None;
     _onVersionCheck := None |}.

Definition log (message : string) : OTA unit :=
  o <- this ;;
  when (_debugMode o) (emit (EvSerial (lit message))).

(** [logf]: the rendered line goes through a 256 byte buffer. *)
Definition logf (rendered : list ascii) : OTA unit :=
  o <- this ;;
  when (_debugMode o) (emit (EvSerial (snprintf 256 rendered))).

Definition setFirmwareURL (url : list ascii) : OTA unit :=
  assign (fun o =>
    set_firmwareURL
      (<[(sizeof_firmwareURL - 1)%nat := NUL]>
         (strncpy (_firmwareURL o) url (sizeof_firmwareURL - 1))) o).

Definition setVersionURL (url : list ascii) : OTA unit :=
  assign (fun o =>
    set_versionURL
      (<[(sizeof_versionURL - 1)%nat := NUL]>
         (strncpy (_versionURL o) url (sizeof_versionURL - 1))) o).

Definition setCurrentVersion (version : list ascii) : OTA unit :=
  assign (fun o =>
    set_currentVersion
      (<[(sizeof_currentVersion - 1)%nat := NUL]>
         (strncpy (_currentVersion o) version (sizeof_currentVersion - 1))) o).

Definition setCheckInterval (intervalMs : Z) : OTA unit :=
  assign (set_checkInterval (uint32 intervalMs)).

Definition setRandomDelay (minMs maxMs : Z) : OTA unit :=
  assign (set_minRandomDelay (uint32 minMs)) ;;
  assign (set_maxRandomDelay (uint32 maxMs)).

(** The argument arrives as a [uint8_t]. *)
Definition setStaggeredRollout (enable : bool) (percentage : Z) : OTA unit :=
  assign (set_staggeredRollout enable) ;;
  assign (set_rolloutPercentage (uint8 (constrain (uint8 percentage) 0 100))).

(** [pinMode], [digitalWrite] and [digitalRead] take the pin as a
    [uint8_t]: the [int] the object holds is narrowed at each call. *)
Definition setStatusLED (pin : Z) : OTA unit :=
  assign (set_statusLED (int32 pin)) ;;
  when (0 <=? int32 pin)
    (emit (EvPinMode (uint8 (int32 pin))) ;;
     emit (EvDigitalWrite (uint8 (int32 pin)) false)).

Definition setMaxRetries (retries : Z) : OTA unit :=
  assign (set_maxRetries (uint8 retries)).

Definition setDebugMode (enable : bool) : OTA unit :=
  assign (set_debugMode enable).

Definition onUpdateStart (callback : option fnptr) : OTA unit :=
  assign (set_onUpdateStart callback).
Definition onUpdateProgress (callback : option fnptr) : OTA unit :=
  assign (set_onUpdateProgress callback).
Definition onUpdateComplete (callback : option fnptr) : OTA unit :=
  assign (set_onUpdateComplete callback).
Definition onUpdateError (callback : option fnptr) : OTA unit :=
  assign (set_onUpdateError callback).
Definition onVersionCheck (callback : option fnptr) : OTA unit :=
  assign (set_onVersionCheck callback).

(** ** Private helpers *)

(** [strncpy(_lastError, error, sizeof(_lastError) - 1)] and the
    terminator written after it. *)
Definition record_error (error : list ascii) (o : ESP32_AutoOTA)
  : ESP32_AutoOTA :=
  set_lastError
    (<[(sizeof_lastError - 1)%nat := NUL]>
       (strncpy (_lastError o) error (sizeof_lastError - 1))) o.

(** The observer is handed the caller's pointer; the stored copy is cut
    to the array. Observers are taken not to call back into the object. *)
Definition setError (error : list ascii) : OTA unit :=
  assign (record_error error) ;;
  logf (lit "[AutoOTA] ERROR: " ++ c_str error) ;;
  o <- this ;;
  match _onUpdateError o with
  | Some f => emit (EvOnUpdateError f (c_str error))
  | None => ret tt
  end.

Fixpoint blink_loop (pin : Z) (times : nat) (delayMs : Z) : OTA unit :=
  match times with
  | O => ret tt
  | S k =>
      emit (EvDigitalWrite pin true) ;;
      emit (EvDelay delayMs) ;;
      emit (EvDigitalWrite pin false) ;;
      emit (EvDelay delayMs) ;;
      blink_loop pin k delayMs
  end.

Definition blinkLED (times : nat) (delayMs : Z) : OTA unit :=
  o <- this ;;
  if _statusLED o <? 0 then ret tt
  else blink_loop (uint8 (_statusLED o)) times delayMs.

Definition byte_val (b : Byte.byte) : Z := Z.of_N (Byte.to_N b).

(** The [for (int i = 0; i < 6; i++)] loop over [mac[i]]. *)
Fixpoint hash_loop (mac : list Byte.byte) (i : nat) (turns : nat) (hash : Z)
  : Z :=
  match turns with
  | O => hash
  | S k =>
      hash_loop mac (S i) k
        (uint32 (uint32 (hash * 31) + byte_val (nth i mac Byte.x00)))
  end.

Definition getDeviceHash (mac : list Byte.byte) : Z := hash_loop mac 0 6 0.

(** The body of [shouldUpdateNow] once the hash is known. *)
Definition shouldUpdateNow_with (deviceHash : Z) (o : ESP32_AutoOTA) : bool :=
  let devicePercentile := uint8 (deviceHash mod 100) in
  devicePercentile <? _rolloutPercentage o.

Definition shouldUpdateNow (mac : list Byte.byte) (o : ESP32_AutoOTA) : bool :=
  let deviceHash := getDeviceHash mac in
  shouldUpdateNow_with deviceHash o.

Definition getRandomDelay (draw : Z) (o : ESP32_AutoOTA) : Z :=
  uint32 (random draw (int32 (_minRandomDelay o)) (int32 (_maxRandomDelay o))).

(** ** Control methods *)

(** [xTaskCreate] either stores a handle ([pdPASS]) or fails. *)
Definition begin (wifi_connected : bool) (xTaskCreate : option TaskHandle_t)
  : OTA bool :=
  o <- this ;;
  if _isRunning o then
    log "[AutoOTA] Already running" ;;
    ret false
  else if (strlen (_firmwareURL o) =? 0) || (strlen (_versionURL o) =? 0) then
    setError (lit "Firmware or version URL not set") ;;
    ret false
  else if negb wifi_connected then
    setError (lit "WiFi not connected") ;;
    ret false
  else
    log "[AutoOTA] Starting OTA task..." ;;
    emit (EvTaskCreate DEFAULT_STACK_SIZE DEFAULT_TASK_PRIORITY) ;;
    match xTaskCreate with
    | Some h =>
        assign (set_taskHandle (Some h)) ;;
        assign (set_isRunning true) ;;
        log "[AutoOTA] Task started successfully" ;;
        ret true
    | None =>
        setError (lit "Failed to create task") ;;
        ret false
    end.

Definition stop : OTA unit :=
  o <- this ;;
  match _taskHandle o with
  | Some h => emit (EvTaskDelete h) ;; assign (set_taskHandle None)
  | None => ret tt
  end ;;
  assign (set_isRunning false) ;;
  log "[AutoOTA] Task stopped".

Definition isRunning : OTA bool := o <- this ;; ret (_isRunning o).

Definition forceCheck : OTA unit :=
  assign (set_forceCheckFlag true) ;;
  log "[AutoOTA] Force check requested".

Definition getCurrentVersion : OTA (list ascii) :=
  o <- this ;; ret (_currentVersion o).
Definition getLastCheckTime : OTA Z := o <- this ;; ret (_lastCheckTime o).
Definition getLastError : OTA (list ascii) := o <- this ;; ret (_lastError o).

(** ** The update executor *)

(** [while (http.connected() && (written < total))]. *)
Fixpoint download (stream : list StreamTick) (written total : Z) : OTA Z :=
  match stream with
  | [] => ret written
  | tk :: rest =>
      if written <? total then
        let available := uint32 (tk_available tk) in
        w <- (if available =? 0 then ret written
              else
                let bytesToRead := Z.min available 128 in
                emit (EvStreamRead bytesToRead) ;;
                let bytesRead := tk_readBytes tk in
                emit (EvUpdateWrite bytesRead) ;;
                let written' := uint32 (written + tk_written tk) in
                o <- this ;;
                match _onUpdateProgress o with
                | Some f =>
                    when ((written' mod 10240 =? 0) || (written' =? total))
                      (emit (EvOnUpdateProgress f written' total))
                | None => ret tt
                end ;;
                when ((0 <=? _statusLED o) && (written' mod 4096 =? 0))
                  (emit (EvToggle (uint8 (_statusLED o)))) ;;
                ret written') ;;
        emit (EvDelay 1) ;;
        download rest w total
      else ret written
  end.

(** [ESP.restart()] is recorded and the method goes on to its
    [return true], as the source has it. On the device the call does
    not come back: what the device does is the trace up to [EvRestart],
    and what a run shows after it holds of the source text only. *)
Definition performUpdate (fw : FirmwareReply) : OTA bool :=
  emit EvPerformUpdate ;;
  log "[AutoOTA] Starting firmware download..." ;;
  blinkLED 3 100 ;;
  o <- this ;;
  match _onUpdateStart o with
  | Some f => emit (EvOnUpdateStart f)
  | None => ret tt
  end ;;
  emit (EvHttpGet (c_str (_firmwareURL o))) ;;
  let httpCode := fr_code fw in
  done <-
    (if httpCode =? HTTP_CODE_OK then
       let contentLength := fr_size fw in
       if 0 <? contentLength then
         logf (lit "[AutoOTA] Firmware size: " ++ fmt_d contentLength
                 ++ lit " bytes") ;;
         emit (EvUpdateBegin contentLength) ;;
         if fr_canBegin fw then
           log "[AutoOTA] Writing firmware to flash..." ;;
           written <- download (fr_stream fw) 0 contentLength ;;
           when (0 <=? _statusLED o)
             (emit (EvDigitalWrite (uint8 (_statusLED o)) false)) ;;
           logf (lit "[AutoOTA] Wrote: " ++ fmt_d written ++ lit " bytes") ;;
           emit EvUpdateEnd ;;
           if fr_end fw then
             if fr_isFinished fw then
               log "[AutoOTA] Update successful! Rebooting..." ;;
               match _onUpdateComplete o with
               | Some f => emit (EvOnUpdateComplete f)
               | None => ret tt
               end ;;
               blinkLED 5 200 ;;
               emit (EvDelay 1000) ;;
               emit EvRestart ;;
               ret true
             else
               setError (lit "Update not finished") ;;
               ret false
           else
             setError
               (snprintf 64
                  (lit "Update failed: error " ++ fmt_d (fr_getError fw))) ;;
             ret false
         else
           setError (lit "Not enough space for OTA") ;;
           ret false
       else
         setError (lit "Content length is zero") ;;
         ret false
     else
       setError
         (snprintf 64 (lit "Download failed: HTTP " ++ fmt_d httpCode)) ;;
       ret false) ;;
  if done then ret true
  else emit EvHttpEnd ;; ret false.

(** ** The decision engine *)

(** The [return] statement a check leaves through. The method's [bool]
    is [succeeded]: [true] for up to date, for a deferred update and for a
    completed one, [false] otherwise. *)
Inductive Outcome : Type := UpToDate | Deferred | Updated | Failed.

Definition succeeded (r : Outcome) : bool :=
  match r with
  | Failed => false
  | _ => true
  end.

Definition checkForUpdate (env : CheckEnv) : OTA Outcome :=
  log "[AutoOTA] Checking for firmware update..." ;;
  o <- this ;;
  match _onVersionCheck o with
  | Some f => emit (EvOnVersionCheck f)
  | None => ret tt
  end ;;
  emit (EvHttpGet (c_str (_versionURL o))) ;;
  let httpCode := vr_code (ce_version env) in
  if httpCode =? HTTP_CODE_OK then
    let remoteVersion := String_trim (vr_body (ce_version env)) in
    logf (lit "[AutoOTA] Current: " ++ c_str (_currentVersion o)
            ++ lit ", Remote: " ++ c_str remoteVersion) ;;
    if String_equals remoteVersion (_currentVersion o) then
      log "[AutoOTA] Firmware is up to date" ;;
      emit EvHttpEnd ;;
      ret UpToDate
    else
      log "[AutoOTA] New version available!" ;;
      if _staggeredRollout o && negb (shouldUpdateNow (ce_mac env) o) then
        logf (lit "[AutoOTA] Staggered rollout: Delaying update (device not in "
                ++ fmt_d (_rolloutPercentage o) ++ lit "% group)") ;;
        emit EvHttpEnd ;;
        ret Deferred
      else
        emit EvHttpEnd ;;
        updated <- performUpdate (ce_firmware env) ;;
        ret (if updated then Updated else Failed)
  else
    logf (lit "[AutoOTA] Version check failed: HTTP " ++ fmt_d httpCode) ;;
    setError (lit "Version check failed") ;;
    emit EvHttpEnd ;;
    ret Failed.

(** ** The background task *)

(** One turn of [while (true)]. It reports the outcome of the check it
    made, if it made one. *)
Definition otaTask_turn (env : LoopEnv) : OTA (option Outcome) :=
  if negb (le_wifi env) then
    log "[AutoOTA] WiFi disconnected, waiting..." ;;
    emit (EvTaskDelay (10000 / portTICK_PERIOD_MS)) ;;
    ret None
  else
    o <- this ;;
    checked <-
      (if _forceCheckFlag o
          || (_checkInterval o <=? uint32 (le_millis env - _lastCheckTime o))
       then
         assign (set_forceCheckFlag false) ;;
         r <- checkForUpdate (le_check env) ;;
         (if succeeded r then assign (set_retryCount 0)
          else
            assign (fun o => set_retryCount (uint8 (_retryCount o + 1)) o) ;;
            o' <- this ;;
            when (_maxRetries o' <=? _retryCount o')
              (logf (lit "[AutoOTA] Max retries reached ("
                       ++ fmt_d (_maxRetries o')
                       ++ lit "), resetting counter") ;;
               assign (set_retryCount 0))) ;;
         assign (set_lastCheckTime (uint32 (le_millis_after env))) ;;
         ret (Some r)
       else ret None) ;;
    o2 <- this ;;
    let variation := _checkInterval o2 / 10 in
    let nextCheck :=
      uint32 (_checkInterval o2
              + random (le_random env) (int32 (- variation)) (int32 variation)) in
    emit (EvTaskDelay (nextCheck / portTICK_PERIOD_MS)) ;;
    ret checked.

(** The turns of the loop against a list of environments, one per turn. *)
Fixpoint otaTask_loop (envs : list LoopEnv) : OTA (list (option Outcome)) :=
  match envs with
  | [] => ret []
  | env :: rest =>
      r <- otaTask_turn env ;;
      rs <- otaTask_loop rest ;;
      ret (r :: rs)
  end.

(** The task: the random initial delay, then the loop. *)
Definition otaTask (draw : Z) (envs : list LoopEnv)
  : OTA (list (option Outcome)) :=
  o <- this ;;
  let initialDelay := getRandomDelay draw o in
  logf (lit "[AutoOTA] Waiting " ++ fmt_lu (initialDelay / 1000)
          ++ lit " seconds before first check...") ;;
  emit (EvTaskDelay (initialDelay / portTICK_PERIOD_MS)) ;;
  log "[AutoOTA] Starting update monitoring" ;;
  otaTask_loop envs.

(** ** Calls from outside and turns of the task, in any order *)

Inductive Call : Type :=
  | CallSetFirmwareURL (url : list ascii)
  | CallSetVersionURL (url : list ascii)
  | CallSetCurrentVersion (version : list ascii)
  | CallSetCheckInterval (intervalMs : Z)
  | CallSetRandomDelay (minMs maxMs : Z)
  | CallSetStaggeredRollout (enable : bool) (percentage : Z)
  | CallSetStatusLED (pin : Z)
  | CallSetMaxRetries (retries : Z)
  | CallSetDebugMode (enable : bool)
  | CallOnUpdateStart (callback : option fnptr)
  | CallOnUpdateProgress (callback : option fnptr)
  | CallOnUpdateComplete (callback : option fnptr)
  | CallOnUpdateError (callback : option fnptr)
  | CallOnVersionCheck (callback : option fnptr)
  | CallBegin (wifi_connected : bool) (xTaskCreate : option TaskHandle_t)
  | CallStop
  | CallIsRunning
  | CallForceCheck
  | CallGetCurrentVersion
  | CallGetLastCheckTime
  | CallGetLastError
  | TaskTurn (env : LoopEnv).

Definition perform (c : Call) : OTA unit :=
  match c with
  | CallSetFirmwareURL url => setFirmwareURL url
  | CallSetVersionURL url => setVersionURL url
  | CallSetCurrentVersion version => setCurrentVersion version
  | CallSetCheckInterval intervalMs => setCheckInterval intervalMs
  | CallSetRandomDelay minMs maxMs => setRandomDelay minMs maxMs
  | CallSetStaggeredRollout enable percentage =>
      setStaggeredRollout enable percentage
  | CallSetStatusLED pin => setStatusLED pin
  | CallSetMaxRetries retries => setMaxRetries retries
  | CallSetDebugMode enable => setDebugMode enable
  | CallOnUpdateStart callback => onUpdateStart callback
  | CallOnUpdateProgress callback => onUpdateProgress callback
  | CallOnUpdateComplete callback => onUpdateComplete callback
  | CallOnUpdateError callback => onUpdateError callback
  | CallOnVersionCheck callback => onVersionCheck callback
  | CallBegin wifi_connected xTaskCreate =>
      _ <- begin wifi_connected xTaskCreate ;; ret tt
  | CallStop => stop
  | CallIsRunning => _ <- isRunning ;; ret tt
  | CallForceCheck => forceCheck
  | CallGetCurrentVersion => _ <- getCurrentVersion ;; ret tt
  | CallGetLastCheckTime => _ <- getLastCheckTime ;; ret tt
  | CallGetLastError => _ <- getLastError ;; ret tt
  | TaskTurn env => _ <- otaTask_turn env ;; ret tt
  end.

Fixpoint perform_all (cs : list Call) : OTA unit :=
  match cs with
  | [] => ret tt
  | c :: rest => perform c ;; perform_all rest
  end.

(** ** What a trace shows *)

Definition as_error (e : Event) : option (fnptr * list ascii) :=
  match e with
  | EvOnUpdateError f msg => Some (f, msg)
  | _ => None
  end.

Definition as_restart (e : Event) : option unit :=
  match e with
  | EvRestart => Some tt
  | _ => None
  end.

Definition as_executor (e : Event) : option unit :=
  match e with
  | EvPerformUpdate => Some tt
  | _ => None
  end.

(** The error notifications of a trace, in order. *)
Definition error_calls (t : list Event) : list (fnptr * list ascii) :=
  omap as_error t.
(** How often the device was restarted. *)
Definition restarts (t : list Event) : nat := length (omap as_restart t).
(** How often the executor was entered. *)
Definition executor_runs (t : list Event) : nat :=
  length (omap as_executor t).

(** ** Specification-side definitions *)

(** The rolling hash in the words of the specification: [h = h*31 + byte]
    from 0, modulo [2^32]. *)
Definition rolling_hash (bytes : list Z) : Z :=
  fold_left (fun h b => (h * 31 + b) mod 2 ^ 32) bytes 0.

(** The counter discipline in the words of the specification. *)
Definition retry_policy (maxRetries : Z) (count : Z) (r : option Outcome) : Z :=
  match r with
  | None => count
  | Some Failed => if maxRetries <=? count + 1 then 0 else count + 1
  | Some _ => 0
  end.

(** A character array of [n] bytes that holds a terminated string. *)
Definition terminated (n : nat) (buf : list ascii) : Prop :=
  length buf = n /\ (length (c_str buf) < n)%nat.

Definition buffers_ok (o : ESP32_AutoOTA) : Prop :=
  terminated sizeof_firmwareURL (_firmwareURL o)
  /\ terminated sizeof_versionURL (_versionURL o)
  /\ terminated sizeof_currentVersion (_currentVersion o)
  /\ terminated sizeof_lastError (_lastError o).

Definition config_invariant (o : ESP32_AutoOTA) : Prop :=
  _minRandomDelay o <= _maxRandomDelay o
  /\ 0 <= _rolloutPercentage o <= 100.

(** A call that hands [setRandomDelay] its bounds in order. *)
Definition ordered_delay (c : Call) : Prop :=
  match c with
  | CallSetRandomDelay minMs maxMs => uint32 minMs <= uint32 maxMs
  | _ => True
  end.

(** The check of a turn is due. *)
Definition check_due (env : LoopEnv) (o : ESP32_AutoOTA) : bool :=
  _forceCheckFlag o
  || (_checkInterval o <=? uint32 (le_millis env - _lastCheckTime o)).

(** The outcome a turn of the loop has to report, in the words of the
    specification: that of the check, made when the network is up and
    the check is due, whatever the counter is. *)
Definition turn_outcome (env : LoopEnv) (o : ESP32_AutoOTA) : option Outcome :=
  if le_wifi env && check_due env o
  then Some (result (checkForUpdate (le_check env)
                      (set_forceCheckFlag false o)))
  else None.

(** The object a turn has to leave: the one its check left, with the
    counter moved by the policy and the time of the check stamped. *)
Definition turn_object (env : LoopEnv) (o : ESP32_AutoOTA) : ESP32_AutoOTA :=
  if le_wifi env && check_due env o
  then
    let chk := checkForUpdate (le_check env) (set_forceCheckFlag false o) in
    set_lastCheckTime (uint32 (le_millis_after env))
      (set_retryCount
         (retry_policy (_maxRetries o) (_retryCount o) (Some (result chk)))
         (object chk))
  else o.

(** The outcomes of the checks along a run, one entry per turn. *)
Fixpoint check_outcomes (envs : list LoopEnv) (o : ESP32_AutoOTA)
  : list (option Outcome) :=
  match envs with
  | [] => []
  | env :: rest =>
      turn_outcome env o :: check_outcomes rest (turn_object env o)
  end.

(** ** Reasoning vocabulary *)

(** A method keeps a property of the object. *)
Definition preserves {A} (P : ESP32_AutoOTA -> Prop) (m : OTA A) : Prop :=
  forall o, P o -> P (object (m o)).

(** The property survives what [setError] stores. *)
Definition stable_error (P : ESP32_AutoOTA -> Prop) : Prop :=
  forall o error, P o -> P (record_error error o).

(** The property survives every assignment of the task loop. *)
Definition stable_turn (P : ESP32_AutoOTA -> Prop) : Prop :=
  stable_error P
  /\ (forall o v, P o -> P (set_forceCheckFlag v o))
  /\ (forall o v, P o -> P (set_lastCheckTime v o))
  /\ (forall o, P o -> P (set_retryCount 0 o))
  /\ (forall o, P o -> P (set_retryCount (uint8 (_retryCount o + 1)) o)).

(** Running [m] on [o] ends in a result, object and trace that satisfy
    [Q]. *)
Definition wp {A} (m : OTA A) (o : ESP32_AutoOTA)
    (Q : A -> ESP32_AutoOTA -> list Event -> Prop) : Prop :=
  Q (result (m o)) (object (m o)) (trace (m o)).

(** A trace without error notification, restart or executor entry. *)
Definition quiet (t : list Event) : Prop :=
  error_calls t = [] /\ restarts t = 0%nat /\ executor_runs t = 0%nat.

(** The conditions under which the executor fails, read off its
    branches. *)
Definition executor_fails (fw : FirmwareReply) : Prop :=
  fr_code fw <> HTTP_CODE_OK
  \/ fr_size fw <= 0
  \/ fr_canBegin fw = false
  \/ fr_end fw = false
  \/ fr_isFinished fw = false.

(** The check goes on to the executor: the remote version, read as a C
    string, differs from the stored one and the rollout gate lets the
    device through. *)
Definition proceeds (env : CheckEnv) (o : ESP32_AutoOTA) : Prop :=
  vr_code (ce_version env) = HTTP_CODE_OK
  /\ c_str (String_trim (vr_body (ce_version env)))
     <> c_str (_currentVersion o)
  /\ (_staggeredRollout o = false \/ shouldUpdateNow (ce_mac env) o = true).

(** ** Sample objects and environments *)

Definition fresh : ESP32_AutoOTA := ESP32_AutoOTA_new [] [] [] [].

Definition sample_setup : list Call :=
  [ CallSetFirmwareURL (lit "http://updates.local/firmware.bin");
    CallSetVersionURL (lit "http://updates.local/version.txt");
    CallSetCurrentVersion (lit "1.0.0");
    CallOnUpdateError (Some 7%nat) ].

Definition configured : ESP32_AutoOTA := object (perform_all sample_setup fresh).

(** The configured object once [begin] has started the task. *)
Definition running : ESP32_AutoOTA :=
  object (begin true (Some 1%nat) configured).

Definition sample_mac : list Byte.byte :=
  [Byte.x24; Byte.x6f; Byte.x28; Byte.xaa; Byte.xbb; Byte.xcc].

Definition no_firmware : FirmwareReply :=
  {| fr_code := 404; fr_size := -1; fr_canBegin := false; fr_stream := [];
     fr_end := false; fr_isFinished := false; fr_getError := 0 |}.

Definition check_env (code : Z) (body : list ascii) : CheckEnv :=
  {| ce_mac := sample_mac;
     ce_version := {| vr_code := code; vr_body := body |};
     ce_firmware := no_firmware |}.

Definition loop_env (now : Z) (c : CheckEnv) : LoopEnv :=
  {| le_wifi := true; le_millis := now; le_check := c;
     le_millis_after := now + 150; le_random := 17 |}.

(** A turn at time [now] whose version request is answered with 404. *)
Definition failing_at (now : Z) : LoopEnv := loop_env now (check_env 404 []).

Definition three_failures : list LoopEnv :=
  [failing_at 400000; failing_at 800000; failing_at 1200000].

(** The running object after two failed checks in a row. *)
Definition twice_failed : ESP32_AutoOTA :=
  object (otaTask_loop [failing_at 400000; failing_at 800000] running).

(** The server answers with the installed version and a line end. *)
Definition same_version : CheckEnv :=
  check_env 200 (lit "1.0.0" ++ ["010"%char]).

(** The server announces another version. *)
Definition newer_version : CheckEnv := check_env 200 (lit "1.0.1").

(** The body holds the installed version, a NUL and more bytes. *)
Definition nul_version : CheckEnv :=
  check_env 200 (lit "1.0.0" ++ NUL :: lit "-rc1").

(** Half of the fleet goes first; the sample device is in bucket 78. *)
Definition staged : ESP32_AutoOTA :=
  object (begin true (Some 1%nat)
            (object (setStaggeredRollout true 50 configured))).

(** ** Vocabulary for the properties beyond the claims *)

(** The object without the four fields the background task writes: what
    is left is the configuration, the observers and the control state. *)
Definition settings (o : ESP32_AutoOTA) : ESP32_AutoOTA :=
  set_forceCheckFlag false
    (set_lastError [] (set_retryCount 0 (set_lastCheckTime 0 o))).

(** A method keeps [I] and emits only events in [E]. *)
Definition confined {A} (I : ESP32_AutoOTA -> Prop) (E : Event -> Prop)
    (m : OTA A) : Prop :=
  forall o, I o -> I (object (m o)) /\ Forall E (trace (m o)).

(** The events the background task of an object configured as [o] can
    emit, each under the guard of the statement that emits it. *)
Inductive task_event (o : ESP32_AutoOTA) : Event -> Prop :=
  | te_serial line :
      _debugMode o = true -> task_event o (EvSerial line)
  | te_led_write high :
      0 <= _statusLED o ->
      task_event o (EvDigitalWrite (uint8 (_statusLED o)) high)
  | te_led_toggle :
      0 <= _statusLED o -> task_event o (EvToggle (uint8 (_statusLED o)))
  | te_blink_delay ms :
      0 <= _statusLED o -> ms = 100 \/ ms = 200 -> task_event o (EvDelay ms)
  | te_delay ms :
      ms = 1 \/ ms = 1000 -> task_event o (EvDelay ms)
  | te_task_delay ticks : task_event o (EvTaskDelay ticks)
  | te_get_version : task_event o (EvHttpGet (c_str (_versionURL o)))
  | te_get_firmware : task_event o (EvHttpGet (c_str (_firmwareURL o)))
  | te_http_end : task_event o EvHttpEnd
  | te_executor : task_event o EvPerformUpdate
  | te_flash_begin size : 0 < size -> task_event o (EvUpdateBegin size)
  | te_stream_read len : 1 <= len <= 128 -> task_event o (EvStreamRead len)
  | te_flash_write len : task_event o (EvUpdateWrite len)
  | te_flash_end : task_event o EvUpdateEnd
  | te_restart : task_event o EvRestart
  | te_version_check f :
      _onVersionCheck o = Some f -> task_event o (EvOnVersionCheck f)
  | te_start f :
      _onUpdateStart o = Some f -> task_event o (EvOnUpdateStart f)
  | te_progress f written total :
      _onUpdateProgress o = Some f ->
      0 < total ->
      written mod 10240 = 0 \/ written = total ->
      task_event o (EvOnUpdateProgress f written total)
  | te_complete f :
      _onUpdateComplete o = Some f -> task_event o (EvOnUpdateComplete f)
  | te_error f msg :
      _onUpdateError o = Some f -> msg <> [] ->
      task_event o (EvOnUpdateError f msg).

(** Diagnostics and status output: serial lines, the LED, waits and
    progress notifications. Everything else is an action of the agent. *)
Definition background (e : Event) : bool :=
  match e with
  | EvSerial _ | EvPinMode _ | EvDigitalWrite _ _ | EvToggle _
  | EvDelay _ | EvOnUpdateProgress _ _ _ => true
  | _ => false
  end.

(** The actions of a trace, in order. *)
Definition foreground (t : list Event) : list Event :=
  List.filter (fun e => negb (background e)) t.

(** Reads from the connection and writes to the flash. *)
Definition transfer (e : Event) : Prop :=
  exists len, e = EvStreamRead len \/ e = EvUpdateWrite len.

(** The call of an observer, if one is registered. *)
Definition notify (cb : option fnptr) (ev : fnptr -> Event) : list Event :=
  match cb with
  | Some f => [ev f]
  | None => []
  end.

Definition notify_error (o : ESP32_AutoOTA) (msg : string) : list Event :=
  notify (_onUpdateError o) (fun f => EvOnUpdateError f (lit msg)).

(** The text [snprintf] leaves in the 64 byte scratch array. *)
Definition error_text (prefix : string) (code : Z) : list ascii :=
  c_str (snprintf 64 (lit prefix ++ fmt_d code)).

(** The actions of the executor, read off its branches; [xfer] stands
    for the reads and writes of the copy loop. *)
Definition executor_actions (fw : FirmwareReply) (o : ESP32_AutoOTA)
    (xfer : list Event) : list Event :=
  [EvPerformUpdate]
  ++ notify (_onUpdateStart o) EvOnUpdateStart
  ++ [EvHttpGet (c_str (_firmwareURL o))]
  ++ (if fr_code fw =? HTTP_CODE_OK then
        if 0 <? fr_size fw then
          [EvUpdateBegin (fr_size fw)]
          ++ (if fr_canBegin fw then
                xfer ++ [EvUpdateEnd]
                ++ (if fr_end fw then
                      if fr_isFinished fw then
                        notify (_onUpdateComplete o) EvOnUpdateComplete
                        ++ [EvRestart]
                      else notify_error o "Update not finished" ++ [EvHttpEnd]
                    else
                      notify (_onUpdateError o)
                        (fun f => EvOnUpdateError f
                           (error_text "Update failed: error " (fr_getError fw)))
                      ++ [EvHttpEnd])
              else notify_error o "Not enough space for OTA" ++ [EvHttpEnd])
        else notify_error o "Content length is zero" ++ [EvHttpEnd]
      else
        notify (_onUpdateError o)
          (fun f => EvOnUpdateError f
             (error_text "Download failed: HTTP " (fr_code fw)))
        ++ [EvHttpEnd]).

(** The actions of a check, read off its branches. *)
Definition check_actions (env : CheckEnv) (o : ESP32_AutoOTA)
    (xfer : list Event) : list Event :=
  notify (_onVersionCheck o) EvOnVersionCheck
  ++ [EvHttpGet (c_str (_versionURL o))]
  ++ (if vr_code (ce_version env) =? HTTP_CODE_OK then
        if String_equals (String_trim (vr_body (ce_version env)))
             (_currentVersion o)
        then [EvHttpEnd]
        else if _staggeredRollout o && negb (shouldUpdateNow (ce_mac env) o)
        then [EvHttpEnd]
        else [EvHttpEnd] ++ executor_actions (ce_firmware env) o xfer
      else notify_error o "Version check failed" ++ [EvHttpEnd]).

Definition is_http_get (e : Event) : bool :=
  match e with EvHttpGet _ => true | _ => false end.
Definition is_http_end (e : Event) : bool :=
  match e with EvHttpEnd => true | _ => false end.
Definition is_flash (e : Event) : bool :=
  match e with
  | EvUpdateBegin _ | EvUpdateWrite _ | EvUpdateEnd => true
  | _ => false
  end.

(** How many events of a kind a trace holds. *)
Definition count (p : Event -> bool) (t : list Event) : nat :=
  length (List.filter p t).

(** Samples for the further properties. *)

(** A firmware reply that carries 300 bytes in three reads. *)
Definition good_firmware : FirmwareReply :=
  {| fr_code := 200; fr_size := 300; fr_canBegin := true;
     fr_stream :=
       [ {| tk_available := 500; tk_readBytes := 128; tk_written := 128 |};
         {| tk_available := 0; tk_readBytes := 0; tk_written := 0 |};
         {| tk_available := 372; tk_readBytes := 128; tk_written := 128 |};
         {| tk_available := 44; tk_readBytes := 44; tk_written := 44 |} ];
     fr_end := true; fr_isFinished := true; fr_getError := 0 |}.

(** A newer version is announced and the firmware reply is [fw]. *)
Definition update_env (fw : FirmwareReply) : CheckEnv :=
  {| ce_mac := sample_mac;
     ce_version := {| vr_code := 200; vr_body := lit "1.0.1" |};
     ce_firmware := fw |}.

(** The running object with every observer registered, the LED on pin 2
    and the debug output off. *)
Definition observed : ESP32_AutoOTA :=
  object (perform_all
            [ CallOnUpdateStart (Some 1%nat);
              CallOnUpdateProgress (Some 2%nat);
              CallOnUpdateComplete (Some 3%nat);
              CallOnVersionCheck (Some 4%nat);
              CallSetStatusLED 2;
              CallSetDebugMode false ] running).

(** A turn without connectivity. *)
Definition offline_turn : LoopEnv :=
  {| le_wifi := false; le_millis := 1000; le_check := newer_version;
     le_millis_after := 1000; le_random := 0 |}.

(** Kinds of events. *)
Definition is_task_create (e : Event) : bool :=
  match e with EvTaskCreate _ _ => true | _ => false end.
Definition is_task_control (e : Event) : bool :=
  match e with EvTaskCreate _ _ | EvTaskDelete _ => true | _ => false end.
Definition is_serial (e : Event) : bool :=
  match e with EvSerial _ => true | _ => false end.
Definition is_gpio (e : Event) : bool :=
  match e with
  | EvPinMode _ | EvDigitalWrite _ _ | EvToggle _ => true
  | _ => false
  end.

(** The argument of the [vTaskDelay] that ends a turn: the interval and
    a draw from [random(-variation, variation)]. *)
Definition next_wait (draw interval : Z) : Z :=
  uint32 (interval
          + random draw (int32 (- (interval / 10))) (int32 (interval / 10)))
  / portTICK_PERIOD_MS.

(** The error the executor records, read off its branches; [None] when
    no branch fails. *)
Definition executor_error (fw : FirmwareReply) : option (list ascii) :=
  if fr_code fw =? HTTP_CODE_OK then
    if 0 <? fr_size fw then
      if fr_canBegin fw then
        if fr_end fw then
          if fr_isFinished fw then None
          else Some (lit "Update not finished")
        else Some (snprintf 64 (lit "Update failed: error "
                                  ++ fmt_d (fr_getError fw)))
      else Some (lit "Not enough space for OTA")
    else Some (lit "Content length is zero")
  else Some (snprintf 64 (lit "Download failed: HTTP " ++ fmt_d (fr_code fw))).

(** The error a check records. *)
Definition check_error (env : CheckEnv) (o : ESP32_AutoOTA)
  : option (list ascii) :=
  if vr_code (ce_version env) =? HTTP_CODE_OK then
    if String_equals (String_trim (vr_body (ce_version env)))
         (_currentVersion o)
    then None
    else if _staggeredRollout o && negb (shouldUpdateNow (ce_mac env) o)
    then None
    else executor_error (ce_firmware env)
  else Some (lit "Version check failed").

(** ** Running a method: result, object and trace of a sequence *)

Lemma bind_result {A B} (m : OTA A) (k : A -> OTA B) o :
  result (bind m k o) = result (k (result (m o)) (object (m o))).
Proof.
  unfold bind, result, object.
  destruct (m o) as [[a o1] t1]; simpl.
  destruct (k a o1) as [[b o2] t2]; reflexivity.
Qed.

Lemma bind_object {A B} (m : OTA A) (k : A -> OTA B) o :
  object (bind m k o) = object (k (result (m o)) (object (m o))).
Proof.
  unfold bind, result, object.
  destruct (m o) as [[a o1] t1]; simpl.
  destruct (k a o1) as [[b o2] t2]; reflexivity.
Qed.

Lemma bind_trace {A B} (m : OTA A) (k : A -> OTA B) o :
  trace (bind m k o) = trace (m o) ++ trace (k (result (m o)) (object (m o))).
Proof.
  unfold bind, result, object, trace.
  destruct (m o) as [[a o1] t1]; simpl.
  destruct (k a o1) as [[b o2] t2]; reflexivity.
Qed.

(** ** C strings *)

Lemma c_str_length_le mem : (length (c_str mem) <= length mem)%nat.
Proof.
  induction mem as [|c rest IH]; simpl; [lia|].
  destruct (Ascii.eqb c NUL); simpl; lia.
Qed.

Lemma strncpy_image_length src n : length (strncpy_image src n) = n.
Proof.
  revert src; induction n as [|n IH]; intros src; simpl; [reflexivity|].
  destruct src as [|c rest]; simpl; [now rewrite IH|].
  destruct (Ascii.eqb c NUL); simpl; now rewrite IH.
Qed.

Lemma c_str_strncpy_image src n tl :
  c_str (strncpy_image src n ++ NUL :: tl) = take n (c_str src).
Proof.
  revert src; induction n as [|n IH]; intros src; simpl.
  - now rewrite take_0.
  - destruct src as [|c rest]; simpl; [reflexivity|].
    destruct (Ascii.eqb c NUL) eqn:E; simpl; [reflexivity|].
    rewrite E. now rewrite IH.
Qed.

(** After [strncpy(buf, src, n); buf[n] = 0] on an array of [n+1] bytes
    the array is the copied image followed by the terminator. *)
Lemma stored_shape dst src n :
  length dst = S n ->
  <[n := NUL]> (strncpy dst src n) = strncpy_image src n ++ [NUL].
Proof.
  intros Hlen. unfold strncpy.
  pose proof (strncpy_image_length src n) as Hn.
  replace n with (length (strncpy_image src n) + 0)%nat at 1 by lia.
  rewrite insert_app_r.
  destruct (drop n dst) as [|x [|y tl]] eqn:E;
    apply (f_equal length) in E; rewrite length_drop in E; simpl in E;
    try lia.
  reflexivity.
Qed.

Lemma stored_terminated dst src n :
  length dst = S n ->
  terminated (S n) (<[n := NUL]> (strncpy dst src n))
  /\ c_str (<[n := NUL]> (strncpy dst src n)) = take n (c_str src).
Proof.
  intros Hlen. unfold terminated. rewrite stored_shape by exact Hlen.
  rewrite c_str_strncpy_image. split; [|reflexivity].
  split.
  - rewrite length_app, strncpy_image_length. simpl. lia.
  - rewrite length_take. lia.
Qed.

Lemma array_of_length n raw : length (array_of n raw) = n.
Proof.
  unfold array_of. rewrite length_take, length_app, length_replicate. lia.
Qed.

Lemma emptied_terminated n buf :
  length buf = S n -> terminated (S n) (<[0%nat := NUL]> buf).
Proof.
  intros H. destruct buf as [|c rest]; [discriminate|].
  split; simpl in *; [rewrite H; reflexivity| lia].
Qed.

Lemma c_str_idem_app s tl : c_str (c_str s ++ NUL :: tl) = c_str s.
Proof.
  induction s as [|c rest IH]; simpl; [reflexivity|].
  destruct (Ascii.eqb c NUL) eqn:E; simpl; [reflexivity|].
  rewrite E. now rewrite IH.
Qed.

Lemma strcpy_terminated n dst src :
  length dst = n -> (length (c_str src) < n)%nat ->
  terminated n (strcpy dst src) /\ c_str (strcpy dst src) = c_str src.
Proof.
  intros Hlen Hsrc. unfold terminated, strcpy.
  rewrite c_str_idem_app. split; [|reflexivity].
  split; [|exact Hsrc].
  rewrite length_app. simpl. rewrite length_drop. lia.
Qed.

Lemma new_buffers_ok raw_fw raw_ver raw_cur raw_err :
  buffers_ok (ESP32_AutoOTA_new raw_fw raw_ver raw_cur raw_err).
Proof.
  unfold buffers_ok; simpl.
  split; [|split; [|split]].
  - apply (emptied_terminated 255), array_of_length.
  - apply (emptied_terminated 255), array_of_length.
  - apply strcpy_terminated; [apply array_of_length|].
    simpl. unfold sizeof_currentVersion. lia.
  - apply (emptied_terminated 127), array_of_length.
Qed.

(** ** Frame rules: what a method leaves alone *)

Lemma preserves_ret {A} P (a : A) : preserves P (ret a).
Proof. intros o H; exact H. Qed.

Lemma preserves_emit P e : preserves P (emit e).
Proof. intros o H; exact H. Qed.

Lemma preserves_this P : preserves P this.
Proof. intros o H; exact H. Qed.

Lemma preserves_assign P f :
  (forall o, P o -> P (f o)) -> preserves P (assign f).
Proof. intros Hf o H; apply Hf, H. Qed.

Lemma preserves_bind {A B} P (m : OTA A) (k : A -> OTA B) :
  preserves P m -> (forall a, preserves P (k a)) -> preserves P (bind m k).
Proof.
  intros Hm Hk o H. rewrite bind_object. apply Hk, Hm, H.
Qed.

Lemma preserves_when P b m : preserves P m -> preserves P (when b m).
Proof. intros Hm. destruct b; [exact Hm | apply preserves_ret]. Qed.

Create HintDb frame.

Ltac frame_step :=
  first
    [ solve [auto 3 with frame nocore]
    | apply preserves_ret
    | apply preserves_emit
    | apply preserves_this
    | apply preserves_when
    | apply preserves_bind; [| intros ?]
    | match goal with
      | |- preserves _ (if ?c then _ else _) => destruct c
      | |- preserves _ (match ?x with _ => _ end) => destruct x
      end ].
Ltac frame := repeat frame_step.

Lemma preserves_log P msg : preserves P (log msg).
Proof. unfold log. frame. Qed.

Lemma preserves_logf P line : preserves P (logf line).
Proof. unfold logf. frame. Qed.
#[local] Hint Resolve preserves_log preserves_logf : frame.

Lemma preserves_blink_loop P pin times d : preserves P (blink_loop pin times d).
Proof. induction times; simpl; frame. Qed.

Lemma preserves_blinkLED P times d : preserves P (blinkLED times d).
Proof. unfold blinkLED. frame. all: apply preserves_blink_loop. Qed.
#[local] Hint Resolve preserves_blinkLED : frame.

Lemma preserves_download P stream : forall written total,
  preserves P (download stream written total).
Proof.
  induction stream as [|tk rest IH]; intros written total; simpl; frame.
Qed.
#[local] Hint Resolve preserves_download : frame.

Lemma preserves_setError P error :
  stable_error P -> preserves P (setError error).
Proof.
  intros HP. unfold setError. frame.
  apply preserves_assign. intros o H. apply HP, H.
Qed.
#[local] Hint Resolve preserves_setError : frame.

Lemma preserves_performUpdate P fw :
  stable_error P -> preserves P (performUpdate fw).
Proof. intros HP. unfold performUpdate. frame. Qed.
#[local] Hint Resolve preserves_performUpdate : frame.

Lemma preserves_checkForUpdate P env :
  stable_error P -> preserves P (checkForUpdate env).
Proof. intros HP. unfold checkForUpdate. frame. Qed.
#[local] Hint Resolve preserves_checkForUpdate : frame.

Lemma preserves_otaTask_turn P env :
  stable_turn P -> preserves P (otaTask_turn env).
Proof.
  intros (HE & HF & HT & H0 & H1). unfold otaTask_turn. frame.
  all: apply preserves_assign; intros; auto.
Qed.

Lemma preserves_otaTask_loop P envs :
  stable_turn P -> preserves P (otaTask_loop envs).
Proof.
  intros HP. induction envs as [|env rest IH]; simpl; frame.
  apply preserves_otaTask_turn, HP.
Qed.

(** ** The rollout gate and the device hash *)

Lemma uint8_small z : 0 <= z < 256 -> uint8 z = z.
Proof. intros H. unfold uint8, wrap. apply Z.mod_small. lia. Qed.

Lemma uint32_range z : 0 <= uint32 z < 2 ^ 32.
Proof. unfold uint32, wrap. apply Z.mod_pos_bound. lia. Qed.

Lemma hash_step h b :
  uint32 (uint32 (h * 31) + b) = (h * 31 + b) mod 2 ^ 32.
Proof. unfold uint32, wrap. apply Zplus_mod_idemp_l. Qed.

(** The counted loop reads [turns] bytes from index [i] on. *)
Lemma hash_loop_fold mac : forall turns i hash,
  (i + turns <= length mac)%nat ->
  hash_loop mac i turns hash
  = fold_left (fun h b => (h * 31 + b) mod 2 ^ 32)
      (map byte_val (take turns (drop i mac))) hash.
Proof.
  induction turns as [|k IH]; intros i hash Hlen; simpl.
  - reflexivity.
  - rewrite IH by lia. rewrite hash_step.
    destruct (drop i mac) as [|b rest] eqn:E.
    + apply (f_equal length) in E. rewrite length_drop in E. simpl in E. lia.
    + assert (Hb : nth i mac Byte.x00 = b).
      { rewrite <- (take_drop i mac) at 1. rewrite E.
        rewrite app_nth2; rewrite length_take; [|lia].
        replace (i - i `min` length mac)%nat with 0%nat by lia.
        reflexivity. }
      assert (Hrest : drop (S i) mac = rest).
      { replace (S i) with (i + 1)%nat by lia.
        rewrite <- drop_drop, E. reflexivity. }
      rewrite Hb, Hrest. reflexivity.
Qed.

(** C1: for a 32-bit hash [h] and a percentage in [0,100] the gate
    answers [(h mod 100) < p]; nobody passes at 0, everybody passes at
    100; the answer depends on the hash and the percentage only, and the
    device's own answer is the gate on its hash. *)
Theorem C1_rollout_gate (h : Z) (o : ESP32_AutoOTA) :
  0 <= h < 2 ^ 32 ->
  0 <= _rolloutPercentage o <= 100 ->
  shouldUpdateNow_with h o = (h mod 100 <? _rolloutPercentage o)
  /\ (_rolloutPercentage o = 0 -> shouldUpdateNow_with h o = false)
  /\ (_rolloutPercentage o = 100 -> shouldUpdateNow_with h o = true)
  /\ (forall o', _rolloutPercentage o' = _rolloutPercentage o ->
                 shouldUpdateNow_with h o' = shouldUpdateNow_with h o)
  /\ (forall mac,
        shouldUpdateNow mac o
        = (getDeviceHash mac mod 100 <? _rolloutPercentage o)).
Proof.
  intros Hh Hp.
  assert (Hgate : forall x, shouldUpdateNow_with x o
                            = (x mod 100 <? _rolloutPercentage o)).
  { intros x. unfold shouldUpdateNow_with.
    rewrite uint8_small; [reflexivity|].
    pose proof (Z.mod_pos_bound x 100). lia. }
  pose proof (Z.mod_pos_bound h 100 ltac:(lia)) as Hb.
  split; [apply Hgate|].
  split; [intros H0; rewrite Hgate, H0; apply Z.ltb_ge; lia|].
  split; [intros H100; rewrite Hgate, H100; apply Z.ltb_lt; lia|].
  split.
  - intros o' Ho'. unfold shouldUpdateNow_with. now rewrite Ho'.
  - intros mac. unfold shouldUpdateNow. apply Hgate.
Qed.

Lemma C1_rollout_gate_witness :
  shouldUpdateNow_with 1134521278 fresh = false.
Proof.
  destruct (C1_rollout_gate 1134521278 fresh) as [H _].
  - lia.
  - simpl. lia.
  - rewrite H. reflexivity.
Defined.

(** C6: the device hash is the fold [h = h*31 + byte] from 0 over the
    six MAC bytes in order, modulo [2^32]; it is a 32-bit value and a
    function of the bytes alone. *)
Theorem C6_device_hash (mac : list Byte.byte) :
  length mac = 6%nat ->
  getDeviceHash mac = rolling_hash (map byte_val mac)
  /\ 0 <= getDeviceHash mac < 2 ^ 32
  /\ (forall mac', mac' = mac -> getDeviceHash mac' = getDeviceHash mac).
Proof.
  intros Hlen.
  assert (Hfold : getDeviceHash mac = rolling_hash (map byte_val mac)).
  { unfold getDeviceHash, rolling_hash.
    rewrite hash_loop_fold by (rewrite Hlen; simpl; lia).
    rewrite drop_0, <- Hlen, firstn_all. reflexivity. }
  split; [exact Hfold|].
  split; [|intros mac' ->; reflexivity].
  destruct mac as [|b0 [|b1 [|b2 [|b3 [|b4 [|b5 [|b6 tl]]]]]]];
    try discriminate Hlen.
  unfold getDeviceHash. simpl. apply uint32_range.
Qed.

Lemma C6_device_hash_witness : getDeviceHash sample_mac = 1134521278.
Proof.
  destruct (C6_device_hash sample_mac) as [H _].
  - reflexivity.
  - rewrite H. reflexivity.
Defined.

(** ** Running a method step by step *)

Lemma wp_ret {A} (a : A) o Q : Q a o [] -> wp (ret a) o Q.
Proof. exact (fun H => H). Qed.

Lemma wp_emit e o Q : Q tt o [e] -> wp (emit e) o Q.
Proof. exact (fun H => H). Qed.

Lemma wp_this o Q : Q o o [] -> wp this o Q.
Proof. exact (fun H => H). Qed.

Lemma wp_assign f o Q : Q tt (f o) [] -> wp (assign f) o Q.
Proof. exact (fun H => H). Qed.

Lemma wp_bind {A B} (m : OTA A) (k : A -> OTA B) o Q :
  wp m o (fun a o1 t1 => wp (k a) o1 (fun b o2 t2 => Q b o2 (t1 ++ t2))) ->
  wp (bind m k) o Q.
Proof.
  unfold wp. now rewrite bind_result, bind_object, bind_trace.
Qed.

Lemma wp_when b m o Q :
  (b = true -> wp m o Q) -> (b = false -> Q tt o []) -> wp (when b m) o Q.
Proof. destruct b; intros H1 H2; [apply H1 | apply H2]; reflexivity. Qed.

Lemma quiet_nil : quiet [].
Proof. repeat split. Qed.

Lemma quiet_app t1 t2 : quiet t1 -> quiet t2 -> quiet (t1 ++ t2).
Proof.
  unfold quiet, error_calls, restarts, executor_runs.
  intros (E1 & R1 & X1) (E2 & R2 & X2).
  rewrite !omap_app, !length_app, E1, E2, R1, R2, X1, X2. repeat split.
Qed.

Lemma quiet_serial line : quiet [EvSerial line].
Proof. repeat split. Qed.

Ltac wp_step :=
  lazymatch goal with
  | |- wp (bind _ _) _ _ => apply wp_bind
  | |- wp (ret _) _ _ => apply wp_ret
  | |- wp (emit _) _ _ => apply wp_emit
  | |- wp this _ _ => apply wp_this
  | |- wp (assign _) _ _ => apply wp_assign
  | |- wp (when _ _) _ _ => apply wp_when; intros ?
  | |- wp (if ?c then _ else _) _ _ => destruct c eqn:?
  | |- wp (match ?x with _ => _ end) _ _ => destruct x eqn:?
  end; cbv beta zeta.

Lemma wp_log msg o Q : (forall t, quiet t -> Q tt o t) -> wp (log msg) o Q.
Proof.
  intros H. unfold log. repeat wp_step; apply H.
  - apply quiet_serial.
  - apply quiet_nil.
Qed.

Lemma wp_logf line o Q : (forall t, quiet t -> Q tt o t) -> wp (logf line) o Q.
Proof.
  intros H. unfold logf. repeat wp_step; apply H.
  - apply quiet_serial.
  - apply quiet_nil.
Qed.

Lemma quiet_blink_loop pin d times o :
  object (blink_loop pin times d o) = o
  /\ quiet (trace (blink_loop pin times d o)).
Proof.
  induction times as [|k [IHo IHt]]; simpl; [split; [reflexivity|apply quiet_nil]|].
  rewrite !bind_object, !bind_trace. simpl. split; [exact IHo|].
  unfold object in IHo. simpl in IHo.
  repeat split; 
    try (unfold error_calls; simpl; apply IHt);
    try (unfold restarts; simpl; apply IHt);
    try (unfold executor_runs; simpl; apply IHt).
Qed.

Lemma wp_blinkLED times d o Q :
  (forall t, quiet t -> Q tt o t) -> wp (blinkLED times d) o Q.
Proof.
  intros H. unfold blinkLED. repeat wp_step.
  - apply H, quiet_nil.
  - unfold wp.
    destruct (quiet_blink_loop (uint8 (_statusLED o)) d times o) as [Ho Ht].
    rewrite Ho. simpl.
    destruct (result (blink_loop (uint8 (_statusLED o)) times d o)).
    apply H. exact Ht.
Qed.

Lemma error_calls_app t1 t2 :
  error_calls (t1 ++ t2) = error_calls t1 ++ error_calls t2.
Proof. apply omap_app. Qed.

Lemma restarts_app t1 t2 : restarts (t1 ++ t2) = (restarts t1 + restarts t2)%nat.
Proof. unfold restarts. now rewrite omap_app, length_app. Qed.

Lemma executor_runs_app t1 t2 :
  executor_runs (t1 ++ t2) = (executor_runs t1 + executor_runs t2)%nat.
Proof. unfold executor_runs. now rewrite omap_app, length_app. Qed.

(** Splits the views of a composite trace and uses what is known of its
    quiet parts. *)
Ltac trace_views :=
  repeat match goal with
         | H : quiet _ |- _ => destruct H as (? & ? & ?)
         end;
  rewrite ?error_calls_app, ?restarts_app, ?executor_runs_app;
  repeat match goal with
         | H : error_calls ?t = _ |- context [error_calls ?t] => rewrite H
         | H : restarts ?t = _ |- context [restarts ?t] => rewrite H
         | H : executor_runs ?t = _ |- context [executor_runs ?t] =>
             rewrite H
         end;
  try reflexivity;
  repeat match goal with
         | |- context [match ?x with Some _ => _ | None => _ end] =>
             destruct x
         end;
  try reflexivity.

Ltac quiet_solve :=
  unfold quiet; repeat split; trace_views.

Lemma wp_download stream : forall written total o Q,
  (forall w t, quiet t -> Q w o t) -> wp (download stream written total) o Q.
Proof.
  induction stream as [|tk rest IH]; intros written total o Q H; simpl.
  - apply wp_ret, H, quiet_nil.
  - repeat wp_step.
    all: try (apply IH; intros w t Hq; apply H; quiet_solve).
    all: try (apply H; quiet_solve).
Qed.

Lemma wp_setError error o Q :
  (forall t, quiet t ->
     Q tt (record_error error o)
       (t ++ match _onUpdateError o with
             | Some f => [EvOnUpdateError f (c_str error)]
             | None => []
             end)) ->
  wp (setError error) o Q.
Proof.
  intros H. unfold setError.
  wp_step. wp_step. wp_step. apply wp_logf. intros t Hq. wp_step. wp_step.
  assert (Hcb : _onUpdateError (record_error error o) = _onUpdateError o)
    by (destruct o; reflexivity).
  rewrite Hcb.
  destruct (_onUpdateError o); wp_step; simpl; apply H, Hq.
Qed.

Lemma wp_use {A} (m : OTA A) o (R Q : A -> ESP32_AutoOTA -> list Event -> Prop) :
  wp m o R -> (forall a o' t, R a o' t -> Q a o' t) -> wp m o Q.
Proof. intros HR HQ. apply HQ, HR. Qed.

Ltac wp_go :=
  cbv beta zeta;
  repeat first
    [ wp_step
    | apply wp_log; intros ? ?
    | apply wp_logf; intros ? ?
    | apply wp_blinkLED; intros ? ?
    | apply wp_download; intros ? ? ?
    | apply wp_setError; intros ? ? ].

(** ** The executor *)

(** Turns the boolean tests on integers into the facts they decide. *)
Ltac z_tests :=
  repeat match goal with
         | H : (_ =? _) = true |- _ => apply Z.eqb_eq in H
         | H : (_ =? _) = false |- _ => apply Z.eqb_neq in H
         | H : (_ <? _) = true |- _ => apply Z.ltb_lt in H
         | H : (_ <? _) = false |- _ => apply Z.ltb_ge in H
         | H : (_ <=? _) = true |- _ => apply Z.leb_le in H
         | H : (_ <=? _) = false |- _ => apply Z.leb_gt in H
         end.

(** An error text that starts with a literal is not empty and fits the
    64 byte scratch array. *)
Lemma formatted_error (prefix : string) (tail : list ascii) c rest :
  lit prefix = c :: rest ->
  Ascii.eqb c NUL = false ->
  c_str (snprintf 64 (lit prefix ++ tail)) <> []
  /\ (length (c_str (snprintf 64 (lit prefix ++ tail))) < 64)%nat.
Proof.
  intros Hp Hc. unfold snprintf. rewrite Hp. split.
  - simpl. rewrite Hc. discriminate.
  - pose proof (c_str_length_le (take (64 - 1) ((c :: rest) ++ tail))) as H.
    rewrite length_take in H. lia.
Qed.

(** The executor is entered once. It returns [true] exactly when no
    branch fails, and then it has restarted the device once and told no
    error; when it returns [false] it has stored an error text, handed
    it to the registered observer once, and not restarted. *)
Lemma performUpdate_spec fw o :
  wp (performUpdate fw) o (fun done o' t =>
    executor_runs t = 1%nat
    /\ ((done = true /\ ~ executor_fails fw /\ o' = o
         /\ error_calls t = [] /\ restarts t = 1%nat)
        \/ (done = false /\ executor_fails fw /\ restarts t = 0%nat
            /\ exists error,
                 c_str error <> []
                 /\ (length (c_str error) < 64)%nat
                 /\ o' = record_error error o
                 /\ error_calls t
                    = match _onUpdateError o with
                      | Some f => [(f, c_str error)]
                      | None => []
                      end))).
Proof.
  unfold performUpdate. wp_go.
  all: split; [trace_views|].
  all: z_tests.
  all: first
    [ left; split; [reflexivity|];
      split; [unfold executor_fails; intuition (congruence || lia)|];
      split; [reflexivity|]; split; trace_views
    | right; split; [reflexivity|];
      split; [unfold executor_fails; intuition (congruence || lia)|];
      split; [trace_views|];
      refine (ex_intro _ _ (conj _ (conj _ (conj eq_refl _))));
      [ first [ eapply proj1, formatted_error; reflexivity
              | simpl; discriminate ]
      | first [ eapply proj2, formatted_error; reflexivity
              | simpl; lia ]
      | trace_views ] ].
Qed.

(** ** The decision engine *)

Lemma String_equals_true s cstr :
  String_equals s cstr = true <-> c_str s = c_str cstr.
Proof. unfold String_equals. apply bool_decide_eq_true. Qed.

Lemma String_equals_false s cstr :
  String_equals s cstr = false <-> c_str s <> c_str cstr.
Proof. unfold String_equals. apply bool_decide_eq_false. Qed.

Lemma c_str_idem s : c_str (c_str s) = c_str s.
Proof.
  induction s as [|c rest IH]; simpl; [reflexivity|].
  destruct (Ascii.eqb c NUL) eqn:E; simpl; [reflexivity|].
  rewrite E. now rewrite IH.
Qed.

Lemma proceeds_intro env o :
  vr_code (ce_version env) = HTTP_CODE_OK ->
  c_str (String_trim (vr_body (ce_version env))) <> c_str (_currentVersion o) ->
  _staggeredRollout o && negb (shouldUpdateNow (ce_mac env) o) = false ->
  proceeds env o.
Proof.
  intros Hc Hne Hgate. split; [exact Hc|]. split; [exact Hne|].
  apply andb_false_iff in Hgate as [Hs|Hn]; [left; exact Hs|right].
  now apply negb_false_iff in Hn.
Qed.

(** Every way out of a check, with what it leaves behind. *)
Lemma checkForUpdate_spec env o :
  wp (checkForUpdate env) o (fun r o' t =>
    match r with
    | UpToDate =>
        vr_code (ce_version env) = HTTP_CODE_OK
        /\ c_str (String_trim (vr_body (ce_version env)))
           = c_str (_currentVersion o)
        /\ o' = o /\ quiet t
    | Deferred =>
        vr_code (ce_version env) = HTTP_CODE_OK
        /\ c_str (String_trim (vr_body (ce_version env)))
           <> c_str (_currentVersion o)
        /\ _staggeredRollout o = true
        /\ shouldUpdateNow (ce_mac env) o = false
        /\ o' = o /\ quiet t
    | Updated =>
        proceeds env o /\ ~ executor_fails (ce_firmware env)
        /\ o' = o /\ executor_runs t = 1%nat
        /\ restarts t = 1%nat /\ error_calls t = []
    | Failed =>
        (vr_code (ce_version env) <> HTTP_CODE_OK
         \/ (proceeds env o /\ executor_fails (ce_firmware env)))
        /\ restarts t = 0%nat
        /\ exists error,
             c_str error <> []
             /\ (length (c_str error) < 64)%nat
             /\ o' = record_error error o
             /\ error_calls t
                = match _onUpdateError o with
                  | Some f => [(f, c_str error)]
                  | None => []
                  end
    end).
Proof.
  unfold checkForUpdate. wp_go.
  all: try (eapply wp_use; [apply performUpdate_spec|]; cbv beta;
            intros done o' t' (Hruns & Hcase); wp_go).
  all: z_tests.
  all: repeat match goal with
              | H : String_equals _ _ = true |- _ =>
                  apply String_equals_true in H
              | H : String_equals _ _ = false |- _ =>
                  apply String_equals_false in H
              | H : _ && _ = true |- _ => apply andb_true_iff in H as [? ?]
              | H : negb _ = true |- _ => apply negb_true_iff in H
              end.
  all: try (destruct Hcase as
             [(-> & ? & -> & ? & ?)
             |(-> & ? & ? & error & ? & ? & -> & Herr)]).
  all: first
    [ (* up to date, deferred *)
      solve [repeat split; auto; trace_views]
    | (* updated *)
      split; [apply proceeds_intro; assumption|];
      split; [assumption|]; split; [reflexivity|];
      repeat split; trace_views
    | (* the executor failed *)
      split; [right; split; [apply proceeds_intro|]; assumption|];
      split; [trace_views|];
      refine (ex_intro _ error (conj _ (conj _ (conj eq_refl _))));
      [assumption | assumption | trace_views]
    | (* the version request failed *)
      split; [left; assumption|];
      split; [trace_views|];
      refine (ex_intro _ _ (conj _ (conj _ (conj eq_refl _))));
      [simpl; discriminate | simpl; lia | trace_views] ].
Qed.

(** ** The task loop *)

Lemma wp_run {A} (m : OTA A) o Q :
  Q (result (m o)) (object (m o)) (trace (m o)) -> wp m o Q.
Proof. exact (fun H => H). Qed.

Lemma retry_fields v o :
  _retryCount (set_retryCount v o) = v
  /\ _maxRetries (set_retryCount v o) = _maxRetries o
  /\ _checkInterval (set_retryCount v o) = _checkInterval o
  /\ (forall w, set_retryCount w (set_retryCount v o) = set_retryCount w o).
Proof. destruct o; repeat split. Qed.

(** The counter after a check that ended in [r], from the counter and
    the ceiling the check left. *)
Lemma otaTask_turn_checked env o :
  le_wifi env = true ->
  check_due env o = true ->
  wp (otaTask_turn env) o (fun r o' t =>
    let chk := checkForUpdate (le_check env) (set_forceCheckFlag false o) in
    let o1 := object chk in
    let c1 := uint8 (_retryCount o1 + 1) in
    r = Some (result chk)
    /\ o' = set_lastCheckTime (uint32 (le_millis_after env))
              (set_retryCount
                 (if succeeded (result chk) then 0
                  else if _maxRetries o1 <=? c1 then 0 else c1) o1)
    /\ exists tail, t = trace chk ++ tail /\ quiet tail).
Proof.
  intros Hwifi Hdue. unfold otaTask_turn. rewrite Hwifi. simpl negb.
  unfold check_due in Hdue. cbv iota.
  wp_step. wp_step. rewrite Hdue. wp_step. wp_step. wp_step. wp_step.
  apply wp_run. cbv beta.
  set (chk := checkForUpdate (le_check env) (set_forceCheckFlag false o)).
  destruct (retry_fields (uint8 (_retryCount (object chk) + 1)) (object chk))
    as (Hc & Hm & Hi & Hset).
  destruct (succeeded (result chk)) eqn:Hok; wp_go.
  all: try rewrite Hc in *; try rewrite Hm in *.
  all: repeat match goal with
              | H : (_ <=? _) = _ |- _ => rewrite H
              end.
  all: try rewrite Hset.
  all: split; [reflexivity|]; split; [reflexivity|].
  all: eexists; split;
    [repeat first [rewrite app_nil_l | rewrite <- app_assoc]; reflexivity|].
  all: quiet_solve.
Qed.

Lemma otaTask_turn_skipped env o :
  le_wifi env = false \/ check_due env o = false ->
  wp (otaTask_turn env) o (fun r o' t => r = None /\ o' = o /\ quiet t).
Proof.
  intros Hskip. unfold otaTask_turn.
  destruct (le_wifi env) eqn:Hwifi; simpl negb; cbv iota.
  - destruct Hskip as [Hskip|Hskip]; [discriminate|].
    unfold check_due in Hskip.
    wp_step. wp_step. rewrite Hskip. wp_go.
    repeat split; quiet_solve.
  - wp_go. repeat split; quiet_solve.
Qed.

(** What the check of a turn cannot touch. *)
Lemma checkForUpdate_frame env o :
  let o1 := object (checkForUpdate env o) in
  _retryCount o1 = _retryCount o
  /\ _maxRetries o1 = _maxRetries o
  /\ _forceCheckFlag o1 = _forceCheckFlag o
  /\ _onUpdateError o1 = _onUpdateError o.
Proof.
  apply (preserves_checkForUpdate
           (fun x => _retryCount x = _retryCount o
                     /\ _maxRetries x = _maxRetries o
                     /\ _forceCheckFlag x = _forceCheckFlag o
                     /\ _onUpdateError x = _onUpdateError o)).
  - intros x error (H1 & H2 & H3 & H4). destruct x; simpl in *.
    repeat split; assumption.
  - repeat split.
Qed.

Lemma flag_cleared_fields o :
  _retryCount (set_forceCheckFlag false o) = _retryCount o
  /\ _maxRetries (set_forceCheckFlag false o) = _maxRetries o
  /\ _forceCheckFlag (set_forceCheckFlag false o) = false
  /\ _onUpdateError (set_forceCheckFlag false o) = _onUpdateError o
  /\ _lastError (set_forceCheckFlag false o) = _lastError o
  /\ _currentVersion (set_forceCheckFlag false o) = _currentVersion o
  /\ _staggeredRollout (set_forceCheckFlag false o) = _staggeredRollout o
  /\ _rolloutPercentage (set_forceCheckFlag false o) = _rolloutPercentage o.
Proof. destruct o; repeat split. Qed.

Lemma stamped_fields T v o :
  let o' := set_lastCheckTime T (set_retryCount v o) in
  _retryCount o' = v
  /\ _maxRetries o' = _maxRetries o
  /\ _forceCheckFlag o' = _forceCheckFlag o
  /\ _lastError o' = _lastError o
  /\ _onUpdateError o' = _onUpdateError o.
Proof. destruct o; repeat split. Qed.

Lemma succeeded_false r : succeeded r = false <-> r = Failed.
Proof. destruct r; simpl; split; congruence. Qed.

(** One turn moves the counter as the policy says, keeps the ceiling,
    and keeps the counter below 255. *)
Lemma otaTask_turn_counter env o :
  0 <= _retryCount o <= 254 ->
  0 <= _maxRetries o <= 255 ->
  _retryCount (object (otaTask_turn env o))
  = retry_policy (_maxRetries o) (_retryCount o) (result (otaTask_turn env o))
  /\ _maxRetries (object (otaTask_turn env o)) = _maxRetries o
  /\ 0 <= _retryCount (object (otaTask_turn env o)) <= 254.
Proof.
  intros Hc Hm.
  destruct (le_wifi env) eqn:Hwifi; [destruct (check_due env o) eqn:Hdue|].
  - destruct (otaTask_turn_checked env o Hwifi Hdue) as (Hr & Ho & _).
    rewrite Hr, Ho. clear Hr Ho.
    set (chk := checkForUpdate (le_check env) (set_forceCheckFlag false o)).
    destruct (checkForUpdate_frame (le_check env) (set_forceCheckFlag false o))
      as (Hc1 & Hm1 & _). fold chk in Hc1, Hm1.
    destruct (flag_cleared_fields o) as (Hc0 & Hm0 & _).
    rewrite Hc0 in Hc1. rewrite Hm0 in Hm1.
    match goal with
    | |- context [set_lastCheckTime ?T (set_retryCount ?v ?x)] =>
        destruct (stamped_fields T v x) as (Hv & Hmx & _)
    end.
    rewrite Hv, Hmx, Hc1, Hm1.
    rewrite (uint8_small (_retryCount o + 1)) by lia.
    unfold retry_policy.
    destruct (result chk); simpl succeeded; cbv iota.
    1-3: repeat split; lia.
    destruct (_maxRetries o <=? _retryCount o + 1) eqn:E; z_tests;
      repeat split; lia.
  - destruct (otaTask_turn_skipped env o (or_intror Hdue)) as (Hr & Ho & _).
    rewrite Hr, Ho. simpl. repeat split; lia.
  - destruct (otaTask_turn_skipped env o (or_introl Hwifi)) as (Hr & Ho & _).
    rewrite Hr, Ho. simpl. repeat split; lia.
Qed.

Lemma otaTask_loop_counter envs : forall o,
  0 <= _retryCount o <= 254 ->
  0 <= _maxRetries o <= 255 ->
  _retryCount (object (otaTask_loop envs o))
  = fold_left (retry_policy (_maxRetries o)) (result (otaTask_loop envs o))
      (_retryCount o)
  /\ length (result (otaTask_loop envs o)) = length envs.
Proof.
  induction envs as [|env rest IH]; intros o Hc Hm; simpl.
  - split; reflexivity.
  - rewrite !bind_object, !bind_result. simpl.
    destruct (otaTask_turn_counter env o Hc Hm) as (Hstep & Hmax & Hrange).
    destruct (IH (object (otaTask_turn env o))) as (Hrest & Hlen).
    + exact Hrange.
    + rewrite Hmax. exact Hm.
    + unfold result at 1. simpl. unfold object at 1. simpl.
      fold (result (otaTask_loop rest (object (otaTask_turn env o)))).
      fold (object (otaTask_loop rest (object (otaTask_turn env o)))).
      rewrite Hrest, Hmax, Hstep. split; [reflexivity|].
      unfold result at 1. simpl.
      fold (result (otaTask_loop rest (object (otaTask_turn env o)))).
      now rewrite Hlen.
Qed.

Lemma otaTask_turn_outcome env o :
  0 <= _retryCount o <= 254 ->
  0 <= _maxRetries o <= 255 ->
  result (otaTask_turn env o) = turn_outcome env o
  /\ object (otaTask_turn env o) = turn_object env o.
Proof.
  intros Hc Hm. unfold turn_outcome, turn_object.
  destruct (le_wifi env) eqn:Hwifi; [destruct (check_due env o) eqn:Hdue|];
    simpl andb; cbv iota.
  - destruct (otaTask_turn_checked env o Hwifi Hdue) as (Hr & Ho & _).
    split; [exact Hr|]. rewrite Ho. clear Hr Ho. cbv zeta.
    set (chk := checkForUpdate (le_check env) (set_forceCheckFlag false o)).
    destruct (checkForUpdate_frame (le_check env) (set_forceCheckFlag false o))
      as (Hc1 & Hm1 & _). fold chk in Hc1, Hm1.
    destruct (flag_cleared_fields o) as (Hc0 & Hm0 & _).
    rewrite Hc0 in Hc1. rewrite Hm0 in Hm1.
    rewrite Hc1, Hm1. rewrite (uint8_small (_retryCount o + 1)) by lia.
    unfold retry_policy. destruct (result chk); reflexivity.
  - destruct (otaTask_turn_skipped env o (or_intror Hdue)) as (Hr & Ho & _).
    split; assumption.
  - destruct (otaTask_turn_skipped env o (or_introl Hwifi)) as (Hr & Ho & _).
    split; assumption.
Qed.

Lemma otaTask_loop_cons env rest o :
  result (otaTask_loop (env :: rest) o)
  = result (otaTask_turn env o)
    :: result (otaTask_loop rest (object (otaTask_turn env o)))
  /\ object (otaTask_loop (env :: rest) o)
     = object (otaTask_loop rest (object (otaTask_turn env o))).
Proof.
  simpl. rewrite !bind_object, !bind_result. split; reflexivity.
Qed.

Lemma otaTask_loop_outcomes envs : forall o,
  0 <= _retryCount o <= 254 ->
  0 <= _maxRetries o <= 255 ->
  result (otaTask_loop envs o) = check_outcomes envs o
  /\ _retryCount (object (otaTask_loop envs o))
     = fold_left (retry_policy (_maxRetries o)) (check_outcomes envs o)
         (_retryCount o).
Proof.
  induction envs as [|env rest IH]; intros o Hc Hm.
  - split; reflexivity.
  - destruct (otaTask_loop_cons env rest o) as (-> & ->).
    destruct (otaTask_turn_outcome env o Hc Hm) as (Hr & Ho).
    destruct (otaTask_turn_counter env o Hc Hm) as (Hstep & Hmax & Hrange).
    rewrite Hr in Hstep. rewrite Ho in Hstep, Hmax, Hrange.
    rewrite Hr, Ho.
    destruct (IH (turn_object env o)) as (Hres & Hfold).
    + exact Hrange.
    + rewrite Hmax. exact Hm.
    + simpl check_outcomes. simpl fold_left.
      rewrite Hres, Hfold, Hmax, Hstep. split; reflexivity.
Qed.

Lemma check_outcomes_take envs : forall n o,
  check_outcomes (take n envs) o = take n (check_outcomes envs o).
Proof.
  induction envs as [|env rest IH]; intros [|n] o; simpl; try reflexivity.
  now rewrite IH.
Qed.

Lemma check_outcomes_length envs : forall o,
  length (check_outcomes envs o) = length envs.
Proof.
  induction envs as [|env rest IH]; intros o; simpl; [|rewrite IH];
    reflexivity.
Qed.

(** C2: along any run of the task loop the failure counter follows the
    policy over the outcomes of the checks the loop makes: one more on
    [Failed], zero on [UpToDate], [Deferred] and [Updated], and zero
    again as soon as it reaches [maxRetries]. The outcomes the loop
    reports are those of [checkForUpdate], made in every turn that has
    connectivity and whose check is due, whatever the counter is; the
    counter after every prefix of the run is the policy folded over the
    outcomes so far. With a ceiling of 3, three failures in a row take
    the counter through 1 and 2 to 0. *)
Theorem C2_retry_counter (envs : list LoopEnv) (o : ESP32_AutoOTA) :
  0 <= _retryCount o <= 254 ->
  0 <= _maxRetries o <= 255 ->
  (result (otaTask_loop envs o) = check_outcomes envs o
   /\ length (result (otaTask_loop envs o)) = length envs)
  /\ (forall n,
        _retryCount (object (otaTask_loop (take n envs) o))
        = fold_left (retry_policy (_maxRetries o))
            (take n (check_outcomes envs o)) (_retryCount o))
  /\ _retryCount (object (otaTask_loop envs o))
     = fold_left (retry_policy (_maxRetries o)) (result (otaTask_loop envs o))
         (_retryCount o)
  /\ (forall env o',
        0 <= _retryCount o' <= 254 ->
        0 <= _maxRetries o' <= 255 ->
        result (otaTask_turn env o') = turn_outcome env o'
        /\ _retryCount (object (otaTask_turn env o'))
           = retry_policy (_maxRetries o') (_retryCount o')
               (turn_outcome env o')
        /\ (le_wifi env = true ->
            check_due env o' = true ->
            result (otaTask_turn env o')
            = Some (result (checkForUpdate (le_check env)
                              (set_forceCheckFlag false o')))
            /\ exists tail,
                 trace (otaTask_turn env o')
                 = trace (checkForUpdate (le_check env)
                            (set_forceCheckFlag false o')) ++ tail))
  /\ (_maxRetries o = 3 ->
      _retryCount o = 0 ->
      check_outcomes envs o = [Some Failed; Some Failed; Some Failed] ->
      map (fun n => _retryCount (object (otaTask_loop (take n envs) o)))
        [1; 2; 3]%nat
      = [1; 2; 0]
      /\ _retryCount (object (otaTask_loop envs o)) = 0).
Proof.
  intros Hc Hm.
  destruct (otaTask_loop_outcomes envs o Hc Hm) as (Hres & Hfold).
  assert (Hprefix : forall n,
             _retryCount (object (otaTask_loop (take n envs) o))
             = fold_left (retry_policy (_maxRetries o))
                 (take n (check_outcomes envs o)) (_retryCount o)).
  { intros n.
    destruct (otaTask_loop_outcomes (take n envs) o Hc Hm) as (_ & H).
    rewrite H. now rewrite check_outcomes_take. }
  split; [split; [exact Hres|rewrite Hres; apply check_outcomes_length]|].
  split; [exact Hprefix|].
  split; [rewrite Hres; exact Hfold|].
  split.
  - intros env o' Hc' Hm'.
    destruct (otaTask_turn_outcome env o' Hc' Hm') as (Hr & _).
    destruct (otaTask_turn_counter env o' Hc' Hm') as (Hstep & _).
    rewrite Hr in Hstep.
    split; [exact Hr|]. split; [exact Hstep|].
    intros Hwifi Hdue.
    destruct (otaTask_turn_checked env o' Hwifi Hdue)
      as (Hr' & _ & tail & Ht & _).
    split; [exact Hr'|]. exists tail. exact Ht.
  - intros H3 H0 Hout. simpl map. split.
    + rewrite !Hprefix, Hout, H3, H0. reflexivity.
    + rewrite Hfold, Hout, H3, H0. reflexivity.
Qed.

Lemma C2_retry_counter_witness :
  map (fun n => _retryCount (object (otaTask_loop (take n three_failures)
                                       running)))
    [1; 2; 3]%nat
  = [1; 2; 0].
Proof.
  destruct (C2_retry_counter three_failures running) as (_ & _ & _ & _ & H).
  - simpl. lia.
  - simpl. unfold DEFAULT_MAX_RETRIES. lia.
  - destruct H as (H & _); [reflexivity..|exact H].
Defined.

(** ** Outcomes of a check *)

(** C3: when the trimmed remote version is the stored local version the
    check returns [UpToDate], which counts as a success, and the
    executor is not entered; nothing is restarted and the object is as
    before. *)
Theorem C3_up_to_date (env : CheckEnv) (o : ESP32_AutoOTA) :
  vr_code (ce_version env) = HTTP_CODE_OK ->
  String_trim (vr_body (ce_version env)) = c_str (_currentVersion o) ->
  result (checkForUpdate env o) = UpToDate
  /\ succeeded (result (checkForUpdate env o)) = true
  /\ executor_runs (trace (checkForUpdate env o)) = 0%nat
  /\ restarts (trace (checkForUpdate env o)) = 0%nat
  /\ object (checkForUpdate env o) = o.
Proof.
  intros Hcode Hsame.
  apply (f_equal c_str) in Hsame. rewrite c_str_idem in Hsame.
  pose proof (checkForUpdate_spec env o) as Hspec. unfold wp in Hspec.
  destruct (result (checkForUpdate env o)).
  - destruct Hspec as (_ & _ & Ho & _ & Hr & Hx). auto.
  - destruct Hspec as (_ & Hne & _). contradiction.
  - destruct Hspec as ((_ & Hne & _) & _). contradiction.
  - destruct Hspec as ([Hbad | ((_ & Hne & _) & _)] & _); contradiction.
Qed.

Lemma C3_up_to_date_witness :
  result (checkForUpdate same_version running) = UpToDate.
Proof.
  destruct (C3_up_to_date same_version running) as (H & _).
  - reflexivity.
  - reflexivity.
  - exact H.
Defined.

(** The comparison stops at the first NUL of the body, as [strcmp]
    does: such a reply counts as the installed version. *)
Lemma checkForUpdate_nul_body :
  String_trim (vr_body (ce_version nul_version))
  <> c_str (_currentVersion running)
  /\ result (checkForUpdate nul_version running) = UpToDate
  /\ executor_runs (trace (checkForUpdate nul_version running)) = 0%nat.
Proof. split; [vm_compute; discriminate|split; reflexivity]. Qed.

Lemma shouldUpdateNow_flag_cleared mac o :
  shouldUpdateNow mac (set_forceCheckFlag false o) = shouldUpdateNow mac o.
Proof.
  unfold shouldUpdateNow, shouldUpdateNow_with.
  destruct (flag_cleared_fields o) as (_ & _ & _ & _ & _ & _ & _ & Hp).
  now rewrite Hp.
Qed.

Lemma proceeds_flag_cleared env o :
  proceeds env (set_forceCheckFlag false o) <-> proceeds env o.
Proof.
  unfold proceeds. rewrite shouldUpdateNow_flag_cleared.
  destruct (flag_cleared_fields o) as (_ & _ & _ & _ & _ & Hv & Hs & _).
  now rewrite Hv, Hs.
Qed.

Lemma gate_closed mac o :
  _rolloutPercentage o <= getDeviceHash mac mod 100 ->
  shouldUpdateNow mac o = false.
Proof.
  intros H. unfold shouldUpdateNow, shouldUpdateNow_with.
  pose proof (Z.mod_pos_bound (getDeviceHash mac) 100 ltac:(lia)).
  rewrite uint8_small by lia. apply Z.ltb_ge. exact H.
Qed.

(** A check that has to defer: the version differs, the rollout is
    staged and the gate is closed. *)
Lemma checkForUpdate_deferred env o :
  vr_code (ce_version env) = HTTP_CODE_OK ->
  c_str (String_trim (vr_body (ce_version env))) <> c_str (_currentVersion o) ->
  _staggeredRollout o = true ->
  shouldUpdateNow (ce_mac env) o = false ->
  result (checkForUpdate env o) = Deferred
  /\ object (checkForUpdate env o) = o
  /\ quiet (trace (checkForUpdate env o)).
Proof.
  intros Hcode Hne Hstag Hgate.
  pose proof (checkForUpdate_spec env o) as Hspec. unfold wp in Hspec.
  destruct (result (checkForUpdate env o)).
  - destruct Hspec as (_ & Hsame & _). contradiction.
  - destruct Hspec as (_ & _ & _ & _ & Ho & Hq). auto.
  - destruct Hspec as ((_ & _ & [Hs|Hg]) & _); congruence.
  - destruct Hspec as ([Hbad | ((_ & _ & [Hs|Hg]) & _)] & _);
      congruence.
Qed.

(** C4: the remote version, trimmed and read as a C string, differs
    from the stored one, the rollout is staged and the device's bucket
    is not below the percentage. Then the check returns
    [Deferred] without entering the executor, and the turn of the task
    loop that made the check leaves the failure counter at zero: it is
    not incremented. *)
Theorem C4_deferred (env : LoopEnv) (o : ESP32_AutoOTA) :
  vr_code (ce_version (le_check env)) = HTTP_CODE_OK ->
  c_str (String_trim (vr_body (ce_version (le_check env))))
    <> c_str (_currentVersion o) ->
  _staggeredRollout o = true ->
  _rolloutPercentage o <= getDeviceHash (ce_mac (le_check env)) mod 100 ->
  (result (checkForUpdate (le_check env) o) = Deferred
   /\ executor_runs (trace (checkForUpdate (le_check env) o)) = 0%nat
   /\ error_calls (trace (checkForUpdate (le_check env) o)) = [])
  /\ (le_wifi env = true ->
      check_due env o = true ->
      result (otaTask_turn env o) = Some Deferred
      /\ executor_runs (trace (otaTask_turn env o)) = 0%nat
      /\ _retryCount (object (otaTask_turn env o)) = 0
      /\ (0 <= _retryCount o ->
          _retryCount (object (otaTask_turn env o)) <= _retryCount o)).
Proof.
  intros Hcode Hne Hstag Hbucket.
  apply gate_closed in Hbucket.
  split.
  - destruct (checkForUpdate_deferred (le_check env) o Hcode Hne Hstag Hbucket)
      as (Hr & _ & (He & _ & Hx)).
    auto.
  - intros Hwifi Hdue.
    destruct (otaTask_turn_checked env o Hwifi Hdue)
      as (Hr & Ho & tail & Ht & Hq).
    destruct (checkForUpdate_deferred (le_check env) (set_forceCheckFlag false o))
      as (Hd & _ & Hqc).
    + exact Hcode.
    + destruct (flag_cleared_fields o) as (_ & _ & _ & _ & _ & Hv & _).
      now rewrite Hv.
    + destruct (flag_cleared_fields o) as (_ & _ & _ & _ & _ & _ & Hs & _).
      now rewrite Hs.
    + now rewrite shouldUpdateNow_flag_cleared.
    + rewrite Hd in Hr, Ho. simpl succeeded in Ho. cbv iota in Ho.
      match type of Ho with
      | _ = set_lastCheckTime ?T (set_retryCount ?v ?x) =>
          destruct (stamped_fields T v x) as (Hv & _)
      end.
      rewrite <- Ho in Hv.
      split; [exact Hr|]. split; [rewrite Ht; trace_views|].
      split; [exact Hv|]. intros Hpos. rewrite Hv. exact Hpos.
Qed.

Lemma C4_deferred_witness :
  result (otaTask_turn (loop_env 400000 newer_version) staged) = Some Deferred
  /\ _retryCount (object (otaTask_turn (loop_env 400000 newer_version) staged))
     = 0.
Proof.
  destruct (C4_deferred (loop_env 400000 newer_version) staged)
    as (_ & H).
  - reflexivity.
  - vm_compute. discriminate.
  - reflexivity.
  - vm_compute. discriminate.
  - destruct H as (Hr & _ & Hc & _); [reflexivity | reflexivity |].
    split; [exact Hr | exact Hc].
Defined.

(** ** Failures *)

Lemma record_error_fields error o :
  _lastError (record_error error o)
  = <[(sizeof_lastError - 1)%nat := NUL]>
      (strncpy (_lastError o) error (sizeof_lastError - 1))
  /\ _retryCount (record_error error o) = _retryCount o
  /\ _maxRetries (record_error error o) = _maxRetries o.
Proof. destruct o; repeat split. Qed.

(** A short error text is stored whole. *)
Lemma record_error_text error o :
  length (_lastError o) = sizeof_lastError ->
  (length (c_str error) < 64)%nat ->
  c_str (_lastError (record_error error o)) = c_str error.
Proof.
  intros Hlen Hshort.
  destruct (record_error_fields error o) as (-> & _).
  destruct (stored_terminated (_lastError o) error 127 Hlen) as (_ & Hstr).
  change (sizeof_lastError - 1)%nat with 127%nat.
  rewrite Hstr. apply take_ge. lia.
Qed.

(** C7, as far as the code goes: a turn of the task loop whose check is
    made ends in [Failed] exactly on the failure branches (the version
    request is not answered with 200, or the update is attempted and the
    download status, the content length, the flash space, the finalize
    step or the completion test fails). On each of them a non-empty
    error text is stored, a registered error observer is called once
    with that text (nobody is called when none is registered), the
    device is not restarted, and the counter is incremented by one and
    then reset to zero if that reaches [maxRetries]; below the ceiling
    it is exactly one more. *)
Theorem C7_failure_branches (env : LoopEnv) (o : ESP32_AutoOTA) :
  length (_lastError o) = sizeof_lastError ->
  0 <= _retryCount o <= 254 ->
  le_wifi env = true ->
  check_due env o = true ->
  (result (otaTask_turn env o) = Some Failed
   <-> vr_code (ce_version (le_check env)) <> HTTP_CODE_OK
       \/ (proceeds (le_check env) o
           /\ executor_fails (ce_firmware (le_check env))))
  /\ (result (otaTask_turn env o) = Some Failed ->
      (exists msg,
         msg <> []
         /\ c_str (_lastError (object (otaTask_turn env o))) = msg
         /\ error_calls (trace (otaTask_turn env o))
            = match _onUpdateError o with
              | Some f => [(f, msg)]
              | None => []
              end)
      /\ restarts (trace (otaTask_turn env o)) = 0%nat
      /\ _retryCount (object (otaTask_turn env o))
         = (if _maxRetries o <=? _retryCount o + 1 then 0
            else _retryCount o + 1)
      /\ (_retryCount o + 1 < _maxRetries o ->
          _retryCount (object (otaTask_turn env o)) = _retryCount o + 1)).
Proof.
  intros Hlen Hc Hwifi Hdue.
  destruct (otaTask_turn_checked env o Hwifi Hdue)
    as (Hr & Ho & tail & Ht & Hq).
  pose proof (checkForUpdate_spec (le_check env) (set_forceCheckFlag false o))
    as Hspec.
  unfold wp in Hspec.
  set (chk := checkForUpdate (le_check env) (set_forceCheckFlag false o)) in *.
  destruct (flag_cleared_fields o)
    as (Hc0 & Hm0 & _ & Hcb0 & Herr0 & Hver & Hstag & _).
  rewrite Hr.
  split.
  - (* which checks fail *)
    destruct (result chk).
    + destruct Hspec as (Hcode & Hsame & _). rewrite Hver in Hsame.
      split; [discriminate|].
      intros [Hbad | ((_ & Hne & _) & _)]; contradiction.
    + destruct Hspec as (Hcode & _ & Hs & Hg & _).
      rewrite Hstag in Hs. rewrite shouldUpdateNow_flag_cleared in Hg.
      split; [discriminate|].
      intros [Hbad | ((_ & _ & [Hs'|Hg']) & _)]; congruence.
    + destruct Hspec as ((Hcode & _) & Hnf & _). split; [discriminate|].
      intros [Hbad | (_ & Hf)]; contradiction.
    + destruct Hspec as ([Hbad | (Hp & Hf)] & _); split; auto.
      intros _. right. split; [apply proceeds_flag_cleared, Hp | exact Hf].
  - (* what a failed check leaves *)
    intros Hfailed. injection Hfailed as Hfailed.
    rewrite Hfailed in Hspec, Ho.
    destruct Hspec as (_ & Hrs & error & Hne & Hshort & Hobj & Hcalls).
    simpl succeeded in Ho. cbv iota in Ho.
    destruct (record_error_fields error (set_forceCheckFlag false o))
      as (_ & Hc1 & Hm1).
    rewrite <- Hobj, Hc0 in Hc1. rewrite <- Hobj, Hm0 in Hm1.
    rewrite Hc1, Hm1 in Ho.
    rewrite (uint8_small (_retryCount o + 1)) in Ho by lia.
    match type of Ho with
    | _ = set_lastCheckTime ?T (set_retryCount ?v ?x) =>
        destruct (stamped_fields T v x) as (Hv & _ & _ & Hle & _)
    end.
    rewrite <- Ho in Hv, Hle.
    assert (Htext : c_str (_lastError (object (otaTask_turn env o)))
                    = c_str error).
    { rewrite Hle, Hobj. apply record_error_text; [|exact Hshort].
      rewrite Herr0. exact Hlen. }
    split; [|split; [|split]].
    + exists (c_str error). split; [exact Hne|]. split; [exact Htext|].
      rewrite Ht, Hcb0 in *. trace_views.
    + rewrite Ht. trace_views.
    + rewrite Hv.
      destruct (_maxRetries o <=? _retryCount o + 1); reflexivity.
    + intros Hbelow. rewrite Hv.
      destruct (_maxRetries o <=? _retryCount o + 1) eqn:E; [|reflexivity].
      z_tests. lia.
Qed.

Lemma C7_failure_branches_witness :
  _retryCount (object (otaTask_turn (failing_at 400000) running)) = 1.
Proof.
  destruct (C7_failure_branches (failing_at 400000) running) as (_ & H).
  - reflexivity.
  - simpl. lia.
  - reflexivity.
  - reflexivity.
  - destruct H as (_ & _ & _ & Hbelow); [reflexivity|].
    apply Hbelow. simpl. unfold DEFAULT_MAX_RETRIES. lia.
Defined.

(** C7 as stated fails at the ceiling: with the default [maxRetries] of
    3 and two failures behind it, a third failed check leaves the
    counter at 0, not at 3. *)
Lemma C7_counterexample :
  result (otaTask_turn (failing_at 1200000) twice_failed) = Some Failed
  /\ _maxRetries twice_failed = 3
  /\ _retryCount twice_failed = 2
  /\ _retryCount (object (otaTask_turn (failing_at 1200000) twice_failed)) = 0
  /\ _retryCount (object (otaTask_turn (failing_at 1200000) twice_failed))
     <> _retryCount twice_failed + 1.
Proof.
  repeat split; try reflexivity.
  vm_compute. discriminate.
Qed.

(** ** Forced checks *)




(** ** Starting the task *)

Lemma started_fields h o :
  _isRunning (set_isRunning true (set_taskHandle (Some h) o)) = true
  /\ _taskHandle (set_isRunning true (set_taskHandle (Some h) o)) = Some h.
Proof. destruct o; split; reflexivity. Qed.

Lemma record_error_control error o :
  _isRunning (record_error error o) = _isRunning o
  /\ _taskHandle (record_error error o) = _taskHandle o.
Proof. destruct o; split; reflexivity. Qed.

Lemma begin_spec wifi task o :
  wp (begin wifi task) o (fun r o' t =>
    if r then
      _isRunning o = false
      /\ strlen (_firmwareURL o) <> 0 /\ strlen (_versionURL o) <> 0
      /\ wifi = true /\ task <> None
      /\ _isRunning o' = true /\ _taskHandle o' = task
      /\ In (EvTaskCreate DEFAULT_STACK_SIZE DEFAULT_TASK_PRIORITY) t
    else
      (_isRunning o = true
       \/ strlen (_firmwareURL o) = 0 \/ strlen (_versionURL o) = 0
       \/ wifi = false \/ task = None)
      /\ _isRunning o' = _isRunning o /\ _taskHandle o' = _taskHandle o).
Proof.
  unfold begin. wp_go.
  all: repeat match goal with
              | H : _ || _ = true |- _ => apply orb_true_iff in H as [H|H]
              | H : _ || _ = false |- _ => apply orb_false_iff in H as [? ?]
              | H : negb _ = true |- _ => apply negb_true_iff in H
              | H : negb _ = false |- _ => apply negb_false_iff in H
              end.
  all: z_tests.
  all: first
    [ (* refused: the control fields are as before *)
      solve
        [ split; [tauto|];
          split;
          [ first [ assumption
                  | rewrite (proj1 (record_error_control _ _)); assumption ]
          | first [ reflexivity | apply record_error_control ] ] ]
    | (* started *)
      match goal with
      | |- context [set_taskHandle (Some ?h) ?x] =>
          destruct (started_fields h x) as (Hrun & Hh)
      end;
      repeat split; try assumption; try discriminate;
      rewrite !in_app_iff; simpl; tauto ].
Qed.

(** C8, as far as the code goes: [begin] returns [false] exactly when
    the agent is already running, a URL is empty, there is no
    connectivity, or the background task cannot be created; the running
    flag and the task handle are then as before. Otherwise it creates
    the task, sets the running flag and returns [true]. *)
Theorem C8_begin (wifi : bool) (task : option TaskHandle_t) (o : ESP32_AutoOTA) :
  (result (begin wifi task o) = false
   <-> _isRunning o = true
       \/ strlen (_firmwareURL o) = 0 \/ strlen (_versionURL o) = 0
       \/ wifi = false \/ task = None)
  /\ (result (begin wifi task o) = true ->
      _isRunning (object (begin wifi task o)) = true
      /\ _taskHandle (object (begin wifi task o)) = task
      /\ In (EvTaskCreate DEFAULT_STACK_SIZE DEFAULT_TASK_PRIORITY)
           (trace (begin wifi task o)))
  /\ (result (begin wifi task o) = false ->
      _isRunning (object (begin wifi task o)) = _isRunning o
      /\ _taskHandle (object (begin wifi task o)) = _taskHandle o).
Proof.
  pose proof (begin_spec wifi task o) as H. unfold wp in H.
  destruct (result (begin wifi task o)).
  - destruct H as (Hrun & Hfw & Hver & Hwifi & Htask & Hset & Hh & Hev).
    split; [split; [discriminate|]|split; [auto|discriminate]].
    intros [Hr | [Hf | [Hv | [Hw | Ht]]]]; congruence.
  - destruct H as (Hwhy & Hkeep).
    split; [split; auto|]. split; [discriminate|auto].
Qed.

Lemma C8_begin_witness :
  result (begin true (Some 1%nat) configured) = true
  /\ _isRunning (object (begin true (Some 1%nat) configured)) = true.
Proof.
  destruct (C8_begin true (Some 1%nat) configured) as (_ & H & _).
  split; [reflexivity|]. apply H. reflexivity.
Defined.

(** C8 as stated fails when [xTaskCreate] fails: the agent is not
    running, both URLs are set and the network is up, yet [begin]
    returns [false] and the running flag stays clear. *)
Lemma C8_counterexample :
  _isRunning configured = false
  /\ strlen (_firmwareURL configured) <> 0
  /\ strlen (_versionURL configured) <> 0
  /\ result (begin true None configured) = false
  /\ _isRunning (object (begin true None configured)) = false.
Proof.
  repeat split; try reflexivity; vm_compute; discriminate.
Qed.

(** ** Invariants over arbitrary call sequences *)

#[local] Hint Resolve preserves_otaTask_turn : frame.

Lemma preserves_perform_all P calls :
  (forall c, In c calls -> preserves P (perform c)) ->
  preserves P (perform_all calls).
Proof.
  induction calls as [|c rest IH]; intros Hall; simpl.
  - apply preserves_ret.
  - apply preserves_bind.
    + apply Hall. left. reflexivity.
    + intros _. apply IH. intros c' Hc'. apply Hall. right. exact Hc'.
Qed.

(** Case analysis over the calls; what is left are the assignments to
    the fields the property reads. *)
Ltac by_fields :=
  repeat split; intros;
  repeat match goal with
         | x : ESP32_AutoOTA |- _ => destruct x
         end;
  simpl in *; auto; try lia; try tauto.

Ltac call_frames :=
  unfold setFirmwareURL, setVersionURL, setCurrentVersion, setCheckInterval,
    setRandomDelay, setStaggeredRollout, setStatusLED, setMaxRetries,
    setDebugMode, onUpdateStart, onUpdateProgress, onUpdateComplete,
    onUpdateError, onVersionCheck, begin, stop, isRunning, forceCheck,
    getCurrentVersion, getLastCheckTime, getLastError;
  frame;
  try (apply preserves_assign).

Ltac over_calls c := destruct c; simpl perform; call_frames.

Lemma constrain_percentage p : 0 <= uint8 (constrain (uint8 p) 0 100) <= 100.
Proof.
  unfold constrain.
  destruct (uint8 p <? 0) eqn:E1; [rewrite uint8_small; lia|].
  destruct (100 <? uint8 p) eqn:E2; [rewrite uint8_small; lia|].
  z_tests. rewrite uint8_small; lia.
Qed.

Lemma percentage_perform c :
  preserves (fun o => 0 <= _rolloutPercentage o <= 100) (perform c).
Proof.
  set (P := fun o => 0 <= _rolloutPercentage o <= 100).
  assert (HE : stable_error P) by (unfold stable_error, record_error, P; by_fields).
  assert (HT : stable_turn P) by (unfold stable_turn, P; by_fields).
  over_calls c.
  all: try solve [unfold P; by_fields].
  unfold P. intros o _. pose proof (constrain_percentage percentage).
  destruct o; simpl. lia.
Qed.

Lemma delay_order_perform c :
  ordered_delay c ->
  preserves (fun o => _minRandomDelay o <= _maxRandomDelay o) (perform c).
Proof.
  set (P := fun o => _minRandomDelay o <= _maxRandomDelay o).
  assert (HE : stable_error P) by (unfold stable_error, record_error, P; by_fields).
  assert (HT : stable_turn P) by (unfold stable_turn, P; by_fields).
  intros Hord. destruct c; simpl perform; simpl in Hord.
  5: { unfold setRandomDelay, P. intros o _. destruct o; simpl. exact Hord. }
  all: clear Hord; call_frames; solve [unfold P; by_fields].
Qed.

Lemma new_config_invariant raw_fw raw_ver raw_cur raw_err :
  config_invariant (ESP32_AutoOTA_new raw_fw raw_ver raw_cur raw_err).
Proof.
  unfold config_invariant. simpl.
  unfold DEFAULT_MIN_RANDOM_DELAY, DEFAULT_MAX_RANDOM_DELAY. lia.
Qed.

Lemma stored_percentage enable p o :
  _rolloutPercentage (object (setStaggeredRollout enable p o))
  = uint8 (constrain (uint8 p) 0 100).
Proof.
  unfold setStaggeredRollout. rewrite bind_object. destruct o; reflexivity.
Qed.

(** C5, as far as the code goes: whatever is called on the object, in
    any order, the rollout percentage stays within [0,100], and a
    percentage argument above 100 is stored as 100. The initial delay
    bounds are in order after construction and stay in order as long as
    every [setRandomDelay] is handed its bounds in order; the setter
    itself stores them as they come. *)
Theorem C5_config_invariant (raw_fw raw_ver raw_cur raw_err : list ascii)
    (calls : list Call) :
  0 <= _rolloutPercentage
         (object (perform_all calls
                    (ESP32_AutoOTA_new raw_fw raw_ver raw_cur raw_err))) <= 100
  /\ (forall enable p o,
        0 <= p <= 255 ->
        _rolloutPercentage (object (setStaggeredRollout enable p o))
        = Z.min p 100)
  /\ (Forall ordered_delay calls ->
      config_invariant
        (object (perform_all calls
                   (ESP32_AutoOTA_new raw_fw raw_ver raw_cur raw_err)))).
Proof.
  destruct (new_config_invariant raw_fw raw_ver raw_cur raw_err) as (Hd & Hp).
  assert (Hpct : 0 <= _rolloutPercentage
                        (object (perform_all calls
                           (ESP32_AutoOTA_new raw_fw raw_ver raw_cur raw_err)))
                 <= 100).
  { apply (preserves_perform_all
             (fun o => 0 <= _rolloutPercentage o <= 100)); [|exact Hp].
    intros c _. apply percentage_perform. }
  split; [exact Hpct|]. split.
  - intros enable p o Hrange. rewrite stored_percentage.
    rewrite (uint8_small p) by lia. unfold constrain.
    destruct (p <? 0) eqn:E1; [z_tests; lia|].
    destruct (100 <? p) eqn:E2; z_tests; rewrite uint8_small; lia.
  - intros Hord. split; [|exact Hpct].
    apply (preserves_perform_all
             (fun o => _minRandomDelay o <= _maxRandomDelay o)); [|exact Hd].
    intros c Hin. apply delay_order_perform.
    rewrite Forall_forall in Hord. apply Hord.
    apply list_elem_of_In. exact Hin.
Qed.

Lemma C5_config_invariant_witness :
  config_invariant
    (object (perform_all
               [CallSetRandomDelay 1000 5000; CallSetStaggeredRollout true 250]
               fresh)).
Proof.
  destruct (C5_config_invariant [] [] [] []
              [CallSetRandomDelay 1000 5000; CallSetStaggeredRollout true 250])
    as (_ & _ & H).
  apply H. repeat constructor. simpl. vm_compute. discriminate.
Defined.

(** C5 as stated fails for the delay bounds: [setRandomDelay(5, 3)] on
    a new object leaves the minimum above the maximum. *)
Lemma C5_counterexample :
  config_invariant fresh
  /\ ~ config_invariant (object (perform (CallSetRandomDelay 5 3) fresh)).
Proof.
  split.
  - apply new_config_invariant.
  - intros (Hd & _). vm_compute in Hd. apply Hd. reflexivity.
Qed.

(** ** Bounded, terminated strings *)

Lemma record_error_buffers error o :
  buffers_ok o -> buffers_ok (record_error error o).
Proof.
  intros (Hfw & Hver & Hcur & Herr).
  destruct (stored_terminated (_lastError o) error 127 (proj1 Herr))
    as (Hterm & _).
  destruct o; unfold buffers_ok in *; simpl in *. tauto.
Qed.

Lemma buffers_perform c : preserves buffers_ok (perform c).
Proof.
  assert (HE : stable_error buffers_ok)
    by (intros o error; apply record_error_buffers).
  assert (HT : stable_turn buffers_ok)
    by (split; [exact HE|]; unfold buffers_ok, terminated; by_fields).
  over_calls c.
  all: try solve [unfold buffers_ok, terminated; by_fields].
  - intros o (Hfw & Hver & Hcur & Herr).
    destruct (stored_terminated (_firmwareURL o) url 255 (proj1 Hfw)) as (H & _).
    destruct o; unfold buffers_ok in *; simpl in *. tauto.
  - intros o (Hfw & Hver & Hcur & Herr).
    destruct (stored_terminated (_versionURL o) url 255 (proj1 Hver)) as (H & _).
    destruct o; unfold buffers_ok in *; simpl in *. tauto.
  - intros o (Hfw & Hver & Hcur & Herr).
    destruct (stored_terminated (_currentVersion o) version 31 (proj1 Hcur))
      as (H & _).
    destruct o; unfold buffers_ok in *; simpl in *. tauto.
Qed.

Lemma reachable_buffers_ok raw_fw raw_ver raw_cur raw_err calls :
  buffers_ok
    (object (perform_all calls
               (ESP32_AutoOTA_new raw_fw raw_ver raw_cur raw_err))).
Proof.
  apply (preserves_perform_all buffers_ok).
  - intros c _. apply buffers_perform.
  - apply new_buffers_ok.
Qed.

Lemma setError_object error o : object (setError error o) = record_error error o.
Proof.
  apply (wp_setError error o (fun _ o' _ => o' = record_error error o)).
  intros t _. reflexivity.
Qed.

(** C10: on an object built by the constructor and used through any
    sequence of calls and task turns, every character array holds a
    string that ends inside the array. A setter keeps of its argument
    what fits: 255 bytes of a URL, 31 bytes of the version, 127 bytes of
    an error text; the arrays stay terminated, so [getCurrentVersion]
    and [getLastError] hand out strings of at most 31 and 127 bytes. *)
Theorem C10_bounded_strings (raw_fw raw_ver raw_cur raw_err : list ascii)
    (calls : list Call) (input : list ascii) :
  let o := object (perform_all calls
                     (ESP32_AutoOTA_new raw_fw raw_ver raw_cur raw_err)) in
  buffers_ok o
  /\ (c_str (_firmwareURL (object (setFirmwareURL input o)))
      = take 255 (c_str input)
      /\ buffers_ok (object (setFirmwareURL input o)))
  /\ (c_str (_versionURL (object (setVersionURL input o)))
      = take 255 (c_str input)
      /\ buffers_ok (object (setVersionURL input o)))
  /\ (c_str (_currentVersion (object (setCurrentVersion input o)))
      = take 31 (c_str input)
      /\ buffers_ok (object (setCurrentVersion input o)))
  /\ (c_str (_lastError (object (setError input o)))
      = take 127 (c_str input)
      /\ buffers_ok (object (setError input o)))
  /\ (result (getCurrentVersion o) = _currentVersion o
      /\ (length (c_str (result (getCurrentVersion o))) <= 31)%nat)
  /\ (result (getLastError o) = _lastError o
      /\ (length (c_str (result (getLastError o))) <= 127)%nat).
Proof.
  intros o.
  assert (Hok : buffers_ok o) by apply reachable_buffers_ok.
  pose proof Hok as (Hfw & Hver & Hcur & Herr).
  split; [exact Hok|].
  split; [|split; [|split; [|split; [|split]]]].
  - split.
    + destruct (stored_terminated (_firmwareURL o) input 255 (proj1 Hfw))
        as (_ & H).
      rewrite <- H. destruct o; reflexivity.
    + apply (buffers_perform (CallSetFirmwareURL input)), Hok.
  - split.
    + destruct (stored_terminated (_versionURL o) input 255 (proj1 Hver))
        as (_ & H).
      rewrite <- H. destruct o; reflexivity.
    + apply (buffers_perform (CallSetVersionURL input)), Hok.
  - split.
    + destruct (stored_terminated (_currentVersion o) input 31 (proj1 Hcur))
        as (_ & H).
      rewrite <- H. destruct o; reflexivity.
    + apply (buffers_perform (CallSetCurrentVersion input)), Hok.
  - rewrite setError_object. split.
    + destruct (stored_terminated (_lastError o) input 127 (proj1 Herr))
        as (_ & H).
      rewrite <- H. destruct o; reflexivity.
    + apply record_error_buffers, Hok.
  - split; [reflexivity|].
    change (result (getCurrentVersion o)) with (_currentVersion o).
    destruct Hcur as (_ & Hlt). unfold sizeof_currentVersion in Hlt. lia.
  - split; [reflexivity|].
    change (result (getLastError o)) with (_lastError o).
    destruct Herr as (_ & Hlt). unfold sizeof_lastError in Hlt. lia.
Qed.

Lemma C10_bounded_strings_witness :
  c_str (_currentVersion
           (object (setCurrentVersion
                      (lit "2.0.0-rc1+build.20251130.abcdef0123456789")
                      configured)))
  = lit "2.0.0-rc1+build.20251130.abcdef".
Proof.
  destruct (C10_bounded_strings [] [] [] [] sample_setup
              (lit "2.0.0-rc1+build.20251130.abcdef0123456789"))
    as (_ & _ & _ & (H & _) & _).
  exact H.
Defined.

(** * Beyond the claims

    Further properties of the same code: the actions of a check in
    order, what the task can emit, the waits of the task loop, and the
    control methods. *)

(** ** The actions of a check *)

Lemma foreground_app t1 t2 : foreground (t1 ++ t2) = foreground t1 ++ foreground t2.
Proof. apply List.filter_app. Qed.

Lemma wp_log_fg msg o Q :
  (forall t, foreground t = [] -> Q tt o t) -> wp (log msg) o Q.
Proof. intros H. unfold log. repeat wp_step; apply H; reflexivity. Qed.

Lemma wp_logf_fg line o Q :
  (forall t, foreground t = [] -> Q tt o t) -> wp (logf line) o Q.
Proof. intros H. unfold logf. repeat wp_step; apply H; reflexivity. Qed.

Lemma blink_loop_fg pin d times o :
  object (blink_loop pin times d o) = o
  /\ foreground (trace (blink_loop pin times d o)) = [].
Proof.
  induction times as [|k [IHo IHt]]; simpl; [split; reflexivity|].
  rewrite !bind_object, !bind_trace. simpl. split; [exact IHo|].
  unfold object in IHo. simpl in IHo. exact IHt.
Qed.

Lemma wp_blinkLED_fg times d o Q :
  (forall t, foreground t = [] -> Q tt o t) -> wp (blinkLED times d) o Q.
Proof.
  intros H. unfold blinkLED. repeat wp_step.
  - apply H. reflexivity.
  - unfold wp.
    destruct (blink_loop_fg (uint8 (_statusLED o)) d times o) as [Ho Ht].
    rewrite Ho. simpl.
    destruct (result (blink_loop (uint8 (_statusLED o)) times d o)).
    apply H. exact Ht.
Qed.

Ltac fg_views :=
  rewrite ?foreground_app;
  repeat match goal with
         | H : foreground ?t = _ |- context [foreground ?t] => rewrite H
         end;
  simpl.

Lemma wp_download_fg stream : forall written total o Q,
  (forall w t, Forall transfer (foreground t) -> Q w o t) ->
  wp (download stream written total) o Q.
Proof.
  induction stream as [|tk rest IH]; intros written total o Q H; simpl.
  - apply wp_ret, H. constructor.
  - repeat wp_step.
    all: try (apply IH; intros w t Hq; apply H; fg_views).
    all: try (apply H; fg_views).
    all: repeat first [ assumption | constructor
                      | eexists; left; reflexivity
                      | eexists; right; reflexivity ].
Qed.

Lemma wp_setError_fg error o Q :
  (forall t, foreground t = [] ->
     Q tt (record_error error o)
       (t ++ notify (_onUpdateError o)
               (fun f => EvOnUpdateError f (c_str error)))) ->
  wp (setError error) o Q.
Proof.
  intros H. unfold setError.
  wp_step. wp_step. wp_step. apply wp_logf_fg. intros t Hq. wp_step. wp_step.
  assert (Hcb : _onUpdateError (record_error error o) = _onUpdateError o)
    by (destruct o; reflexivity).
  rewrite Hcb. unfold notify in H.
  destruct (_onUpdateError o); wp_step; simpl; apply H, Hq.
Qed.

Ltac wp_walk :=
  cbv beta zeta;
  repeat first
    [ wp_step
    | apply wp_log_fg; intros ? ?
    | apply wp_logf_fg; intros ? ?
    | apply wp_blinkLED_fg; intros ? ?
    | apply wp_download_fg; intros ? ? ?
    | apply wp_setError_fg; intros ? ? ].

Lemma c_str_lit_error_texts :
  c_str (lit "Update not finished") = lit "Update not finished"
  /\ c_str (lit "Not enough space for OTA") = lit "Not enough space for OTA"
  /\ c_str (lit "Content length is zero") = lit "Content length is zero"
  /\ c_str (lit "Version check failed") = lit "Version check failed".
Proof. repeat split. Qed.

Lemma performUpdate_actions fw o :
  wp (performUpdate fw) o (fun done o' t =>
    exists xfer,
      Forall transfer xfer
      /\ foreground t = executor_actions fw o xfer).
Proof.
  unfold performUpdate. wp_walk.
  all: unfold executor_actions, notify_error, error_text.
  all: repeat match goal with
              | H : (_ =? _) = _ |- _ => rewrite H
              | H : (_ <? _) = _ |- _ => rewrite H
              | H : fr_canBegin _ = _ |- _ => rewrite H
              | H : fr_end _ = _ |- _ => rewrite H
              | H : fr_isFinished _ = _ |- _ => rewrite H
              | H : _onUpdateStart _ = _ |- _ => rewrite H
              | H : _onUpdateComplete _ = _ |- _ => rewrite H
              end.
  all: first
    [ (* the copy loop ran *)
      match goal with
      | H : Forall transfer (foreground ?t) |- _ =>
          exists (foreground t); split; [exact H|]
      end
    | exists []; split; [constructor|] ].
  all: fg_views; rewrite ?app_nil_r; try reflexivity.
  all: destruct (_onUpdateError o); simpl; rewrite <- ?app_assoc; reflexivity.
Qed.

Lemma checkForUpdate_actions env o :
  wp (checkForUpdate env) o (fun r o' t =>
    exists xfer,
      Forall transfer xfer
      /\ foreground t = check_actions env o xfer).
Proof.
  unfold checkForUpdate. wp_walk.
  all: try (eapply wp_use; [apply performUpdate_actions|]; cbv beta;
            intros done o' t' (xfer & Hx & Hfg); wp_walk).
  all: unfold check_actions, notify_error.
  all: repeat match goal with
              | H : (_ =? _) = _ |- _ => rewrite H
              | H : String_equals _ _ = _ |- _ => rewrite H
              | H : _ && _ = _ |- _ => rewrite H
              | H : _onVersionCheck _ = _ |- _ => rewrite H
              end.
  all: first [ exists xfer; split; [exact Hx|]
             | exists []; split; [constructor|] ].
  all: fg_views; rewrite ?app_nil_r; try reflexivity.
  all: destruct (_onUpdateError o); simpl; rewrite <- ?app_assoc; reflexivity.
Qed.

(** Views of a trace only see actions when they ignore the background. *)
Lemma omap_foreground {A} (p : Event -> option A) t :
  (forall e, background e = true -> p e = None) ->
  omap p t = omap p (foreground t).
Proof.
  intros Hp. induction t as [|e t IH]; [reflexivity|].
  unfold foreground in *. simpl.
  destruct (background e) eqn:Hb; simpl.
  - rewrite (Hp e Hb). exact IH.
  - destruct (p e); [f_equal|]; exact IH.
Qed.

Lemma count_foreground p t :
  (forall e, background e = true -> p e = false) ->
  count p t = count p (foreground t).
Proof.
  intros Hp. unfold count. f_equal.
  induction t as [|e t IH]; [reflexivity|].
  unfold foreground in *. simpl.
  destruct (background e) eqn:Hb; simpl.
  - rewrite (Hp e Hb). exact IH.
  - destruct (p e); [f_equal|]; exact IH.
Qed.

Lemma count_app p t1 t2 : count p (t1 ++ t2) = (count p t1 + count p t2)%nat.
Proof. unfold count. now rewrite List.filter_app, length_app. Qed.

Lemma count_notify p cb ev :
  (forall f, p (ev f) = false) -> count p (notify cb ev) = 0%nat.
Proof. intros H. destruct cb; [|reflexivity]. unfold count. simpl. now rewrite H. Qed.

Lemma count_transfer p xfer :
  (forall len, p (EvStreamRead len) = false) ->
  (forall len, p (EvUpdateWrite len) = false) ->
  Forall transfer xfer -> count p xfer = 0%nat.
Proof.
  intros Hr Hw Hx. unfold count.
  induction Hx as [|e t [len [-> | ->]] _ IH]; simpl; [reflexivity| |].
  - now rewrite Hr.
  - now rewrite Hw.
Qed.

Lemma executor_runs_notify cb ev :
  (forall f, as_executor (ev f) = None) -> executor_runs (notify cb ev) = 0%nat.
Proof. intros H. destruct cb; [|reflexivity]. unfold executor_runs. simpl. now rewrite H. Qed.

Lemma executor_runs_transfer xfer :
  Forall transfer xfer -> executor_runs xfer = 0%nat.
Proof.
  intros Hx. unfold executor_runs.
  induction Hx as [|e t [len [-> | ->]] _ IH]; simpl; auto.
Qed.

Lemma executor_actions_runs fw o xfer :
  Forall transfer xfer ->
  executor_runs (executor_actions fw o xfer) = 1%nat.
Proof.
  intros Hx. unfold executor_actions, notify_error.
  destruct (fr_code fw =? HTTP_CODE_OK), (0 <? fr_size fw), (fr_canBegin fw),
    (fr_end fw), (fr_isFinished fw).
  all: rewrite ?executor_runs_app.
  all: rewrite ?executor_runs_notify by reflexivity.
  all: rewrite ?(executor_runs_transfer xfer Hx).
  all: reflexivity.
Qed.

Lemma proceeds_decided env o :
  proceeds env o
  <-> (vr_code (ce_version env) =? HTTP_CODE_OK) = true
      /\ String_equals (String_trim (vr_body (ce_version env)))
           (_currentVersion o) = false
      /\ _staggeredRollout o && negb (shouldUpdateNow (ce_mac env) o) = false.
Proof.
  unfold proceeds.
  rewrite Z.eqb_eq, String_equals_false, andb_false_iff, negb_false_iff.
  reflexivity.
Qed.

Lemma executor_runs_foreground t :
  executor_runs t = executor_runs (foreground t).
Proof.
  unfold executor_runs. f_equal. apply omap_foreground.
  intros e He. destruct e; try reflexivity; discriminate.
Qed.

Lemma check_actions_runs env o xfer :
  Forall transfer xfer ->
  executor_runs (check_actions env o xfer)
  = if (vr_code (ce_version env) =? HTTP_CODE_OK)
       && negb (String_equals (String_trim (vr_body (ce_version env)))
                  (_currentVersion o))
       && negb (_staggeredRollout o
                && negb (shouldUpdateNow (ce_mac env) o))
    then 1%nat else 0%nat.
Proof.
  intros Hx. unfold check_actions, notify_error.
  destruct (vr_code (ce_version env) =? HTTP_CODE_OK),
    (String_equals (String_trim (vr_body (ce_version env)))
       (_currentVersion o)),
    (_staggeredRollout o && negb (shouldUpdateNow (ce_mac env) o)).
  all: rewrite ?executor_runs_app.
  all: rewrite ?executor_runs_notify by reflexivity.
  all: try rewrite (executor_actions_runs (ce_firmware env) o xfer Hx).
  all: reflexivity.
Qed.

Lemma executor_gate env o :
  (executor_runs (trace (checkForUpdate env o)) = 1%nat <-> proceeds env o)
  /\ (executor_runs (trace (checkForUpdate env o)) = 0%nat
      <-> ~ proceeds env o).
Proof.
  destruct (checkForUpdate_actions env o) as (xfer & Hx & Hfg).
  rewrite executor_runs_foreground, Hfg, (check_actions_runs _ _ _ Hx).
  rewrite proceeds_decided.
  destruct (vr_code (ce_version env) =? HTTP_CODE_OK),
    (String_equals (String_trim (vr_body (ce_version env)))
       (_currentVersion o)),
    (_staggeredRollout o && negb (shouldUpdateNow (ce_mac env) o));
    simpl; intuition congruence.
Qed.

(** X6: a check enters the executor exactly once when the version
    request is answered with 200, the trimmed remote version differs from
    the stored one as a C string (both read up to their first NUL) and
    the rollout gate lets the device through, and not at all otherwise.
    With the staged rollout off a differing version is enough, whatever
    the device hash and the percentage are. *)
Theorem X6_executor_gate (env : CheckEnv) (o : ESP32_AutoOTA) :
  (executor_runs (trace (checkForUpdate env o)) = 1%nat <-> proceeds env o)
  /\ (executor_runs (trace (checkForUpdate env o)) = 0%nat
      <-> ~ proceeds env o)
  /\ (vr_code (ce_version env) = HTTP_CODE_OK ->
      c_str (String_trim (vr_body (ce_version env)))
        <> c_str (_currentVersion o) ->
      _staggeredRollout o = false ->
      executor_runs (trace (checkForUpdate env o)) = 1%nat).
Proof.
  destruct (executor_gate env o) as (H1 & H0).
  split; [exact H1|]. split; [exact H0|].
  intros Hcode Hne Hoff. apply H1. repeat split; auto.
Qed.

Lemma executor_fails_decided fw :
  ~ executor_fails fw
  <-> (fr_code fw =? HTTP_CODE_OK) = true /\ (0 <? fr_size fw) = true
      /\ fr_canBegin fw = true /\ fr_end fw = true /\ fr_isFinished fw = true.
Proof.
  unfold executor_fails. rewrite Z.eqb_eq, Z.ltb_lt.
  destruct (fr_canBegin fw), (fr_end fw), (fr_isFinished fw);
    intuition (try congruence; try lia).
Qed.

Lemma updated_iff env o :
  result (checkForUpdate env o) = Updated
  <-> proceeds env o /\ ~ executor_fails (ce_firmware env).
Proof.
  pose proof (checkForUpdate_spec env o) as Hspec. unfold wp in Hspec.
  destruct (result (checkForUpdate env o)).
  - destruct Hspec as (_ & Hsame & _). split; [discriminate|].
    intros ((_ & Hne & _) & _). contradiction.
  - destruct Hspec as (_ & _ & Hs & Hg & _). split; [discriminate|].
    intros ((_ & _ & [Hs'|Hg']) & _); congruence.
  - destruct Hspec as (Hp & Hnf & _). tauto.
  - destruct Hspec as ([Hbad | (_ & Hf)] & _); (split; [discriminate|]).
    + intros ((Hcode & _) & _). contradiction.
    + intros (_ & Hnf). contradiction.
Qed.

Lemma in_notify e cb ev : In e (notify cb ev) -> exists f, cb = Some f /\ e = ev f.
Proof.
  destruct cb as [f|]; simpl; [|contradiction].
  intros [<-|[]]. eauto.
Qed.

Lemma in_foreground e t : In e t -> background e = false -> In e (foreground t).
Proof.
  intros Hin Hb. unfold foreground. apply List.filter_In.
  split; [exact Hin|]. now rewrite Hb.
Qed.

(** Case analysis on membership in a list of actions. *)
Ltac in_actions H :=
  repeat (rewrite in_app_iff in H || simpl in H);
  repeat match type of H with
         | _ \/ _ => destruct H as [H|H]
         end;
  repeat match goal with
         | H' : _ \/ _ |- _ => destruct H' as [H'|H']
         | H' : In _ (notify _ _) |- _ =>
             apply in_notify in H' as (? & ? & ->)
         | H' : False |- _ => contradiction
         | H' : _ = ?e |- _ => is_var e; subst e
         end;
  try discriminate.

(** X3: the flash writer is touched during a check only when the check
    went on to the executor and the download was answered with 200 and a
    positive length. When [Update.begin] refuses, that call is the only
    one the flash writer sees. *)
Theorem X3_flash_guard (env : CheckEnv) (o : ESP32_AutoOTA) (e : Event) :
  In e (trace (checkForUpdate env o)) ->
  is_flash e = true ->
  proceeds env o
  /\ fr_code (ce_firmware env) = HTTP_CODE_OK
  /\ 0 < fr_size (ce_firmware env)
  /\ (fr_canBegin (ce_firmware env) = false ->
      e = EvUpdateBegin (fr_size (ce_firmware env))).
Proof.
  intros Hin Hflash.
  destruct (checkForUpdate_actions env o) as (xfer & Hx & Hfg).
  apply in_foreground in Hin; [|destruct e; try reflexivity; discriminate].
  rewrite Hfg in Hin. clear Hfg.
  rewrite proceeds_decided.
  unfold check_actions, executor_actions, notify_error in Hin.
  destruct (vr_code (ce_version env) =? HTTP_CODE_OK) eqn:E1;
    [destruct (String_equals (String_trim (vr_body (ce_version env)))
                 (_currentVersion o)) eqn:E2;
     [|destruct (_staggeredRollout o
                 && negb (shouldUpdateNow (ce_mac env) o)) eqn:E3;
       [|destruct (fr_code (ce_firmware env) =? HTTP_CODE_OK) eqn:E4;
         [destruct (0 <? fr_size (ce_firmware env)) eqn:E5;
          [destruct (fr_canBegin (ce_firmware env)) eqn:E6|]|]]]|].
  all: try solve [in_actions Hin].
  - z_tests. repeat split; auto. discriminate.
  - z_tests. in_actions Hin. repeat split; auto.
Qed.

Lemma executor_actions_http fw o xfer :
  Forall transfer xfer ->
  count is_http_get (executor_actions fw o xfer) = 1%nat
  /\ count is_http_end (executor_actions fw o xfer)
     = if (fr_code fw =? HTTP_CODE_OK) && (0 <? fr_size fw)
          && fr_canBegin fw && fr_end fw && fr_isFinished fw
       then 0%nat else 1%nat.
Proof.
  intros Hx. unfold executor_actions, notify_error.
  destruct (fr_code fw =? HTTP_CODE_OK), (0 <? fr_size fw), (fr_canBegin fw),
    (fr_end fw), (fr_isFinished fw).
  all: rewrite ?count_app.
  all: rewrite ?count_notify by reflexivity.
  all: rewrite ?(count_transfer _ xfer) by (reflexivity || exact Hx).
  all: split; reflexivity.
Qed.

(** X4: a check that does not end in a completed update has ended
    every HTTP request it began. *)
Theorem X4_connections_closed (env : CheckEnv) (o : ESP32_AutoOTA) :
  result (checkForUpdate env o) <> Updated ->
  count is_http_end (trace (checkForUpdate env o))
  = count is_http_get (trace (checkForUpdate env o)).
Proof.
  intros Hnot. rewrite updated_iff, proceeds_decided, executor_fails_decided in Hnot.
  destruct (checkForUpdate_actions env o) as (xfer & Hx & Hfg).
  rewrite (count_foreground is_http_end), (count_foreground is_http_get), Hfg
    by (intros e He; destruct e; try reflexivity; discriminate).
  unfold check_actions, notify_error.
  destruct (executor_actions_http (ce_firmware env) o xfer Hx) as (Hg & He).
  destruct (vr_code (ce_version env) =? HTTP_CODE_OK),
    (String_equals (String_trim (vr_body (ce_version env)))
       (_currentVersion o)),
    (_staggeredRollout o && negb (shouldUpdateNow (ce_mac env) o)).
  all: rewrite ?count_app, ?Hg, ?He.
  all: rewrite ?count_notify by reflexivity.
  all: try reflexivity.
  destruct (fr_code (ce_firmware env) =? HTTP_CODE_OK),
    (0 <? fr_size (ce_firmware env)), (fr_canBegin (ce_firmware env)),
    (fr_end (ce_firmware env)), (fr_isFinished (ce_firmware env));
    try reflexivity.
  exfalso. apply Hnot. repeat split.
Qed.

(** The restart is the last thing a completed update does. *)
Lemma performUpdate_restart_last fw o :
  wp (performUpdate fw) o (fun done _ t =>
    done = true -> exists pre, t = pre ++ [EvRestart]).
Proof.
  unfold performUpdate. wp_walk.
  all: intros Hdone; try discriminate.
  all: eexists; rewrite ?app_nil_r; repeat rewrite app_assoc; reflexivity.
Qed.

Lemma checkForUpdate_restart_last env o :
  wp (checkForUpdate env) o (fun r _ t =>
    r = Updated -> exists pre, t = pre ++ [EvRestart]).
Proof.
  unfold checkForUpdate. wp_walk.
  all: try (eapply wp_use; [apply performUpdate_restart_last|]; cbv beta;
            intros done o' t' Hlast; wp_walk).
  all: intros Hr; try discriminate.
  all: destruct done; [|discriminate].
  all: destruct (Hlast eq_refl) as (pre & ->).
  all: eexists; rewrite ?app_nil_r; repeat rewrite app_assoc; reflexivity.
Qed.

(** X5: a check that goes on to the executor and meets no failing
    branch restarts the device once, and the restart is the last thing
    it does; no field of the object has been written by then. Its
    actions are, in this order: the version observer, the version
    request and its end, the start observer, the firmware request, the
    opening of the flash, the reads and writes, the finalize step, the
    complete observer, and last the restart. *)
Theorem X5_update_protocol (env : CheckEnv) (o : ESP32_AutoOTA) :
  proceeds env o ->
  ~ executor_fails (ce_firmware env) ->
  (exists pre,
     trace (checkForUpdate env o) = pre ++ [EvRestart]
     /\ restarts pre = 0%nat)
  /\ object (checkForUpdate env o) = o
  /\ exists xfer,
       Forall transfer xfer
       /\ foreground (trace (checkForUpdate env o))
          = notify (_onVersionCheck o) EvOnVersionCheck
            ++ [EvHttpGet (c_str (_versionURL o)); EvHttpEnd; EvPerformUpdate]
            ++ notify (_onUpdateStart o) EvOnUpdateStart
            ++ [EvHttpGet (c_str (_firmwareURL o));
                EvUpdateBegin (fr_size (ce_firmware env))]
            ++ xfer
            ++ [EvUpdateEnd]
            ++ notify (_onUpdateComplete o) EvOnUpdateComplete
            ++ [EvRestart].
Proof.
  intros Hp Hnf.
  assert (Hres : result (checkForUpdate env o) = Updated)
    by (apply updated_iff; split; assumption).
  pose proof (checkForUpdate_spec env o) as Hspec. unfold wp in Hspec.
  rewrite Hres in Hspec. destruct Hspec as (_ & _ & Ho & _ & Hone & _).
  split.
  { destruct (checkForUpdate_restart_last env o Hres) as (pre & Ht).
    exists pre. split; [exact Ht|].
    rewrite Ht, restarts_app in Hone.
    change (restarts [EvRestart]) with 1%nat in Hone. lia. }
  split; [exact Ho|].
  destruct (checkForUpdate_actions env o) as (xfer & Hx & Hfg).
  exists xfer. split; [exact Hx|]. rewrite Hfg.
  apply proceeds_decided in Hp as (E1 & E2 & E3).
  apply executor_fails_decided in Hnf as (E4 & E5 & E6 & E7 & E8).
  unfold check_actions, executor_actions.
  rewrite E1, E2, E3, E4, E5, E6, E7, E8.
  rewrite <- ?app_assoc. reflexivity.
Qed.

(** X17: an observer slot holds the last registration. After two
    registrations of the error observer a failed version request is told
    to the second one only, once, and to nobody when the second
    registration was [NULL]. *)
Theorem X17_single_slot (env : CheckEnv) (o : ESP32_AutoOTA)
    (first second : option fnptr) :
  vr_code (ce_version env) <> HTTP_CODE_OK ->
  error_calls
    (trace (checkForUpdate env
              (object (onUpdateError second (object (onUpdateError first o))))))
  = match second with
    | Some g => [(g, lit "Version check failed")]
    | None => []
    end.
Proof.
  intros Hcode.
  set (o2 := object (onUpdateError second (object (onUpdateError first o)))).
  assert (Hcb : _onUpdateError o2 = second) by (destruct o; reflexivity).
  destruct (checkForUpdate_actions env o2) as (xfer & Hx & Hfg).
  unfold error_calls.
  rewrite (omap_foreground as_error), Hfg
    by (intros e He; destruct e; try reflexivity; discriminate).
  unfold check_actions, notify_error.
  apply Z.eqb_neq in Hcode. rewrite Hcode, Hcb.
  rewrite !omap_app.
  destruct (_onVersionCheck o2), second; reflexivity.
Qed.

Lemma stop_actions o :
  wp stop o (fun _ o' t =>
    o' = set_isRunning false (set_taskHandle None o)
    /\ foreground t = match _taskHandle o with
                      | Some h => [EvTaskDelete h]
                      | None => []
                      end).
Proof.
  unfold stop. wp_walk.
  - split; [reflexivity|]. fg_views. reflexivity.
  - split; [destruct o; simpl in *; subst; reflexivity|]. fg_views. reflexivity.
Qed.

Lemma stopped_fields o :
  _isRunning (set_isRunning false (set_taskHandle None o)) = false
  /\ _taskHandle (set_isRunning false (set_taskHandle None o)) = None
  /\ _firmwareURL (set_isRunning false (set_taskHandle None o)) = _firmwareURL o
  /\ _versionURL (set_isRunning false (set_taskHandle None o)) = _versionURL o
  /\ settings (set_isRunning false (set_taskHandle None
                 (set_isRunning false (set_taskHandle None o))))
     = settings (set_isRunning false (set_taskHandle None o))
  /\ set_isRunning false (set_taskHandle None
       (set_isRunning false (set_taskHandle None o)))
     = set_isRunning false (set_taskHandle None o).
Proof. destruct o; repeat split. Qed.

(** X1: [stop] clears the running flag and the task handle, and deletes
    the task exactly when a handle is held. A second [stop] changes
    nothing and deletes nothing. After [stop], [begin] starts the task
    again whenever both URLs are set, the network is up and the task can
    be created. *)
Theorem X1_stop (o : ESP32_AutoOTA) :
  (_isRunning (object (stop o)) = false /\ _taskHandle (object (stop o)) = None)
  /\ foreground (trace (stop o))
     = match _taskHandle o with
       | Some h => [EvTaskDelete h]
       | None => []
       end
  /\ (object (stop (object (stop o))) = object (stop o)
      /\ foreground (trace (stop (object (stop o)))) = [])
  /\ (forall wifi task,
        result (begin wifi task (object (stop o))) = true
        <-> strlen (_firmwareURL o) <> 0 /\ strlen (_versionURL o) <> 0
            /\ wifi = true /\ task <> None).
Proof.
  destruct (stop_actions o) as (Ho & Ht).
  destruct (stop_actions (object (stop o))) as (Ho2 & Ht2).
  destruct (stopped_fields o) as (Hr & Hh & Hfw & Hver & _ & Hidem).
  rewrite Ho in *. rewrite Hh in Ht2. rewrite Hidem in Ho2.
  split; [split; assumption|]. split; [exact Ht|].
  split; [split; assumption|].
  intros wifi task.
  pose proof (begin_spec wifi task (set_isRunning false (set_taskHandle None o)))
    as Hb.
  unfold wp in Hb. rewrite Hr, Hfw, Hver in Hb.
  destruct (result (begin wifi task (set_isRunning false (set_taskHandle None o)))).
  - destruct Hb as (_ & H1 & H2 & H3 & H4 & _). tauto.
  - destruct Hb as ([Hbad | [H1 | [H2 | [H3 | H4]]]] & _);
      (split; [discriminate|]); intros (G1 & G2 & G3 & G4);
      congruence.
Qed.

Lemma begin_actions wifi task o :
  wp (begin wifi task) o (fun r o' t =>
    if _isRunning o then r = false /\ o' = o /\ foreground t = []
    else if (strlen (_firmwareURL o) =? 0) || (strlen (_versionURL o) =? 0)
    then r = false
         /\ o' = record_error (lit "Firmware or version URL not set") o
         /\ foreground t = notify_error o "Firmware or version URL not set"
    else if negb wifi
    then r = false
         /\ o' = record_error (lit "WiFi not connected") o
         /\ foreground t = notify_error o "WiFi not connected"
    else match task with
         | Some h =>
             r = true
             /\ o' = set_isRunning true (set_taskHandle (Some h) o)
             /\ foreground t
                = [EvTaskCreate DEFAULT_STACK_SIZE DEFAULT_TASK_PRIORITY]
         | None =>
             r = false
             /\ o' = record_error (lit "Failed to create task") o
             /\ foreground t
                = [EvTaskCreate DEFAULT_STACK_SIZE DEFAULT_TASK_PRIORITY]
                  ++ notify_error o "Failed to create task"
         end).
Proof.
  unfold begin. wp_walk.
  all: split; [reflexivity|]; split; [reflexivity|].
  all: fg_views; unfold notify_error; rewrite ?app_nil_r; try reflexivity.
  all: destruct (_onUpdateError o); reflexivity.
Qed.

Lemma error_calls_foreground t : error_calls t = error_calls (foreground t).
Proof.
  unfold error_calls. apply omap_foreground.
  intros e He. destruct e; try reflexivity; discriminate.
Qed.

Lemma error_calls_notify_error o msg :
  error_calls (notify_error o msg)
  = match _onUpdateError o with
    | Some f => [(f, lit msg)]
    | None => []
    end.
Proof. unfold notify_error. destruct (_onUpdateError o); reflexivity. Qed.

(** X2: a refused [begin] says why, except when the agent is already
    running: then the object is as before and nobody is notified.
    Otherwise the stored error text, which is also handed once to the
    registered error observer, is one of three messages. For a missing
    URL and for missing connectivity no task creation was attempted; for
    the third message it was attempted once. *)
Theorem X2_begin_refusals (wifi : bool) (task : option TaskHandle_t)
    (o : ESP32_AutoOTA) :
  length (_lastError o) = sizeof_lastError ->
  result (begin wifi task o) = false ->
  (_isRunning o = true
   /\ object (begin wifi task o) = o
   /\ foreground (trace (begin wifi task o)) = [])
  \/ (_isRunning o = false
      /\ exists msg : string,
           c_str (_lastError (object (begin wifi task o))) = lit msg
           /\ error_calls (trace (begin wifi task o))
              = match _onUpdateError o with
                | Some f => [(f, lit msg)]
                | None => []
                end
           /\ (((strlen (_firmwareURL o) = 0 \/ strlen (_versionURL o) = 0)
                /\ msg = "Firmware or version URL not set"%string
                /\ count is_task_create (trace (begin wifi task o)) = 0%nat)
               \/ (wifi = false
                   /\ msg = "WiFi not connected"%string
                   /\ count is_task_create (trace (begin wifi task o)) = 0%nat)
               \/ (task = None
                   /\ msg = "Failed to create task"%string
                   /\ count is_task_create (trace (begin wifi task o))
                      = 1%nat))).
Proof.
  intros Hlen Hres.
  pose proof (begin_actions wifi task o) as H. unfold wp in H.
  rewrite error_calls_foreground.
  rewrite (count_foreground is_task_create)
    by (intros e He; destruct e; try reflexivity; discriminate).
  destruct (_isRunning o); [left; tauto|right; split; [reflexivity|]].
  destruct ((strlen (_firmwareURL o) =? 0) || (strlen (_versionURL o) =? 0))
    eqn:Hurl; [|destruct wifi; simpl in H; [destruct task as [h|]|]].
  - destruct H as (_ & -> & ->).
    exists "Firmware or version URL not set"%string.
    split; [apply record_error_text; [exact Hlen|simpl; lia]|].
    split; [apply error_calls_notify_error|]. left.
    apply orb_true_iff in Hurl. rewrite !Z.eqb_eq in Hurl.
    split; [exact Hurl|]. split; [reflexivity|]. apply count_notify. reflexivity.
  - destruct H as (Hr & _). congruence.
  - destruct H as (_ & -> & ->).
    exists "Failed to create task"%string.
    split; [apply record_error_text; [exact Hlen|simpl; lia]|].
    split; [apply (error_calls_notify_error o "Failed to create task")|].
    right. right. split; [reflexivity|]. split; [reflexivity|].
    change (count is_task_create
              ([EvTaskCreate DEFAULT_STACK_SIZE DEFAULT_TASK_PRIORITY]
               ++ notify_error o "Failed to create task") = 1%nat).
    rewrite count_app. unfold notify_error.
    rewrite count_notify by reflexivity. reflexivity.
  - destruct H as (_ & -> & ->).
    exists "WiFi not connected"%string.
    split; [apply record_error_text; [exact Hlen|simpl; lia]|].
    split; [apply error_calls_notify_error|]. right. left.
    split; [reflexivity|]. split; [reflexivity|]. apply count_notify. reflexivity.
Qed.

(** ** What the task can emit *)

Lemma confined_ret {A} I E (a : A) : confined I E (ret a).
Proof. intros o H. split; [exact H | constructor]. Qed.

Lemma confined_emit I E e : E e -> confined I E (emit e).
Proof. intros He o H. split; [exact H | repeat constructor; exact He]. Qed.

Lemma confined_assign (I : ESP32_AutoOTA -> Prop) E f :
  (forall o, I o -> I (f o)) -> confined I E (assign f).
Proof. intros Hf o H. split; [apply Hf, H | constructor]. Qed.

Lemma confined_bind {A B} I E (m : OTA A) (k : A -> OTA B) :
  confined I E m -> (forall a, confined I E (k a)) -> confined I E (bind m k).
Proof.
  intros Hm Hk o H. rewrite bind_object, bind_trace.
  destruct (Hm o H) as (H1 & T1).
  destruct (Hk (result (m o)) (object (m o)) H1) as (H2 & T2).
  split; [exact H2 | apply Forall_app; split; assumption].
Qed.

Lemma confined_bind_this {B} (I : ESP32_AutoOTA -> Prop) E
    (k : ESP32_AutoOTA -> OTA B) :
  (forall a, I a -> confined I E (k a)) -> confined I E (bind this k).
Proof.
  intros Hk o H. rewrite bind_object, bind_trace. simpl.
  apply (Hk o H o H).
Qed.

Lemma confined_when I E b m :
  (b = true -> confined I E m) -> confined I E (when b m).
Proof. destruct b; intros H; [apply H; reflexivity | apply confined_ret]. Qed.

Ltac confine_step :=
  lazymatch goal with
  | |- confined _ _ (bind this _) => apply confined_bind_this; intros ? ?
  | |- confined _ _ (bind _ _) => apply confined_bind; [|intros ?]
  | |- confined _ _ (ret _) => apply confined_ret
  | |- confined _ _ (emit _) => apply confined_emit
  | |- confined _ _ (assign _) => apply confined_assign
  | |- confined _ _ (when _ _) => apply confined_when; intros ?
  | |- confined _ _ (if ?c then _ else _) => destruct c eqn:?
  | |- confined _ _ (match ?x with _ => _ end) => destruct x eqn:?
  end; cbv beta zeta.

Lemma settings_fields x o :
  settings x = settings o ->
  _firmwareURL x = _firmwareURL o /\ _versionURL x = _versionURL o
  /\ _currentVersion x = _currentVersion o
  /\ _checkInterval x = _checkInterval o
  /\ _minRandomDelay x = _minRandomDelay o
  /\ _maxRandomDelay x = _maxRandomDelay o
  /\ _staggeredRollout x = _staggeredRollout o
  /\ _rolloutPercentage x = _rolloutPercentage o
  /\ _statusLED x = _statusLED o /\ _maxRetries x = _maxRetries o
  /\ _debugMode x = _debugMode o
  /\ _isRunning x = _isRunning o /\ _taskHandle x = _taskHandle o
  /\ _onUpdateStart x = _onUpdateStart o
  /\ _onUpdateProgress x = _onUpdateProgress o
  /\ _onUpdateComplete x = _onUpdateComplete o
  /\ _onUpdateError x = _onUpdateError o
  /\ _onVersionCheck x = _onVersionCheck o.
Proof.
  destruct x, o. unfold settings. simpl. intros H.
  injection H as -> -> -> -> -> -> -> -> -> -> -> -> -> -> -> -> -> ->.
  repeat split.
Qed.

Lemma settings_stable o :
  stable_turn (fun x => settings x = settings o).
Proof.
  unfold stable_turn, stable_error, record_error.
  repeat split; intros x; intros; destruct x; assumption.
Qed.

(** Brings what is known of the object being read to the configured
    object, then picks the rule of the grammar. *)
Ltac to_settings :=
  cbv beta in *;
  repeat match goal with
         | H : settings ?a = settings ?o |- _ =>
             apply settings_fields in H;
             destruct H as (? & ? & ? & ? & ? & ? & ? & ? & ? & ? & ? & ?
                            & ? & ? & ? & ? & ? & ?)
         end;
  repeat match goal with
         | H : ?f ?a = ?f ?o |- _ => progress (rewrite H in * )
         end.

Ltac event_ok :=
  to_settings;
  repeat match goal with
         | H : _ || _ = true |- _ => apply orb_true_iff in H
         | H : _ && _ = true |- _ => apply andb_true_iff in H as [? ?]
         end;
  z_tests;
  solve [ econstructor; eauto; try lia; try tauto ].

Ltac confine := repeat confine_step.

Section Grammar.
Variable o : ESP32_AutoOTA.
Let I := fun x => settings x = settings o.
Let E := task_event o.

Lemma log_confined msg : confined I E (log msg).
Proof. unfold log. confine. unfold I, E in *. event_ok. Qed.

Lemma logf_confined line : confined I E (logf line).
Proof. unfold logf. confine. unfold I, E in *. event_ok. Qed.

Lemma blink_loop_confined times d :
  0 <= _statusLED o -> d = 100 \/ d = 200 ->
  confined I E (blink_loop (uint8 (_statusLED o)) times d).
Proof.
  intros Hled Hd. induction times as [|k IH]; simpl; confine.
  5: exact IH.
  all: unfold I, E in *; event_ok.
Qed.

Lemma blinkLED_confined times d :
  d = 100 \/ d = 200 -> confined I E (blinkLED times d).
Proof.
  intros Hd. unfold blinkLED. confine.
  unfold I, E in *. to_settings. z_tests. apply blink_loop_confined; assumption.
Qed.

Lemma download_confined stream : forall written total,
  0 < total -> confined I E (download stream written total).
Proof.
  induction stream as [|tk rest IH]; intros written total Htotal; simpl;
    confine.
  all: try (apply IH; exact Htotal).
  all: unfold I, E in *; try solve [event_ok].
  pose proof (uint32_range (tk_available tk)).
  z_tests. apply te_stream_read. lia.
Qed.

Lemma setError_confined error :
  c_str error <> [] -> confined I E (setError error).
Proof.
  intros Hne. unfold setError. confine.
  - unfold I in *. intros x Hx. destruct x; exact Hx.
  - apply logf_confined.
  - unfold I, E in *. event_ok.
Qed.

Ltac confine_all :=
  repeat first
    [ confine_step
    | apply log_confined
    | apply logf_confined
    | apply blinkLED_confined; tauto
    | apply download_confined; z_tests; lia
    | apply setError_confined;
      first [ eapply proj1, formatted_error; reflexivity
            | simpl; discriminate ] ].

Lemma performUpdate_confined fw : confined I E (performUpdate fw).
Proof.
  unfold performUpdate. confine_all.
  all: unfold I, E in *; event_ok.
Qed.

Lemma checkForUpdate_confined env : confined I E (checkForUpdate env).
Proof.
  unfold checkForUpdate. confine_all.
  all: try apply performUpdate_confined.
  all: unfold I, E in *; event_ok.
Qed.

Lemma otaTask_turn_confined env : confined I E (otaTask_turn env).
Proof.
  unfold otaTask_turn. confine_all.
  all: try apply checkForUpdate_confined.
  all: unfold I, E in *; try solve [event_ok].
  all: intros x Hx; destruct x; exact Hx.
Qed.

Lemma otaTask_loop_confined envs : confined I E (otaTask_loop envs).
Proof.
  induction envs as [|env rest IH]; simpl; confine.
  - apply otaTask_turn_confined.
  - exact IH.
Qed.

Lemma otaTask_confined draw envs : confined I E (otaTask draw envs).
Proof.
  unfold otaTask. confine_all.
  all: try apply otaTask_loop_confined.
  all: unfold I, E in *; event_ok.
Qed.
End Grammar.

Lemma task_grammar draw envs o :
  settings (object (otaTask draw envs o)) = settings o
  /\ Forall (task_event o) (trace (otaTask draw envs o)).
Proof. apply (otaTask_confined o draw envs o). reflexivity. Qed.

Lemma count_none p t : Forall (fun e => p e = false) t -> count p t = 0%nat.
Proof.
  intros H. unfold count. induction H as [|e t He _ IH]; simpl; [reflexivity|].
  now rewrite He.
Qed.

(** X7: whatever the task does, every HTTP request it makes goes to the
    configured version URL or to the configured firmware URL. *)
Theorem X7_configured_urls (draw : Z) (envs : list LoopEnv) (o : ESP32_AutoOTA) :
  Forall (fun e => forall url, e = EvHttpGet url ->
                   url = c_str (_versionURL o) \/ url = c_str (_firmwareURL o))
    (trace (otaTask draw envs o)).
Proof.
  destruct (task_grammar draw envs o) as (_ & H).
  eapply Forall_impl; [exact H|]. cbv beta.
  intros e He url ->. inversion He; auto.
Qed.

(** X8: with the debug mode off the task prints nothing on the serial
    port. *)
Theorem X8_silent_without_debug (draw : Z) (envs : list LoopEnv)
    (o : ESP32_AutoOTA) :
  _debugMode o = false ->
  count is_serial (trace (otaTask draw envs o)) = 0%nat.
Proof.
  intros Hoff. destruct (task_grammar draw envs o) as (_ & H).
  apply count_none. eapply Forall_impl; [exact H|]. cbv beta.
  intros e He. inversion He; try reflexivity. congruence.
Qed.

(** X9: the only pin the task drives is the status LED, by writes and
    toggles and only when the pin number is not negative; the pin the
    calls see is the stored number narrowed to their [uint8_t]. With the
    LED disabled the task does no GPIO at all. It never sets a pin
    mode. *)
Theorem X9_status_led_only (draw : Z) (envs : list LoopEnv) (o : ESP32_AutoOTA) :
  Forall (fun e => is_gpio e = true ->
                   0 <= _statusLED o
                   /\ exists high,
                        e = EvDigitalWrite (uint8 (_statusLED o)) high
                        \/ e = EvToggle (uint8 (_statusLED o)))
    (trace (otaTask draw envs o))
  /\ (_statusLED o < 0 -> count is_gpio (trace (otaTask draw envs o)) = 0%nat).
Proof.
  destruct (task_grammar draw envs o) as (_ & H). split.
  - eapply Forall_impl; [exact H|]. cbv beta.
    intros e He Hg. inversion He; subst; try discriminate.
    + split; [assumption|]. exists high. left. reflexivity.
    + split; [assumption|]. exists true. right. reflexivity.
  - intros Hoff. apply count_none. eapply Forall_impl; [exact H|]. cbv beta.
    intros e He. inversion He; subst; try reflexivity; lia.
Qed.

(** X10: every read from the firmware connection asks for between 1
    and 128 bytes, the size of the copy buffer. Every progress
    notification carries a positive total and a byte count that is a
    multiple of 10240 or the total itself. *)
Theorem X10_bounded_chunks (draw : Z) (envs : list LoopEnv) (o : ESP32_AutoOTA) :
  Forall (fun e =>
            (forall len, e = EvStreamRead len -> 1 <= len <= 128)
            /\ (forall f written total,
                  e = EvOnUpdateProgress f written total ->
                  0 < total
                  /\ (written mod 10240 = 0 \/ written = total)))
    (trace (otaTask draw envs o)).
Proof.
  destruct (task_grammar draw envs o) as (_ & H).
  eapply Forall_impl; [exact H|]. cbv beta.
  intros e He. split.
  - intros len ->. inversion He. assumption.
  - intros f written total ->. inversion He. tauto.
Qed.

(** X11: every observer the task calls is the one registered for that
    event: no call goes through an empty slot. The text handed to the
    error observer is never empty. *)
Theorem X11_registered_observers (draw : Z) (envs : list LoopEnv)
    (o : ESP32_AutoOTA) :
  Forall (fun e =>
            (forall f, e = EvOnVersionCheck f -> _onVersionCheck o = Some f)
            /\ (forall f, e = EvOnUpdateStart f -> _onUpdateStart o = Some f)
            /\ (forall f w n, e = EvOnUpdateProgress f w n ->
                              _onUpdateProgress o = Some f)
            /\ (forall f, e = EvOnUpdateComplete f ->
                          _onUpdateComplete o = Some f)
            /\ (forall f msg, e = EvOnUpdateError f msg ->
                              _onUpdateError o = Some f /\ msg <> []))
    (trace (otaTask draw envs o)).
Proof.
  destruct (task_grammar draw envs o) as (_ & H).
  eapply Forall_impl; [exact H|]. cbv beta.
  intros e He. repeat split; intros; subst; inversion He; subst; assumption.
Qed.

(** X18: the task leaves the configuration, the observers, the running
    flag and the task handle as they are: it writes the last error, the
    failure counter, the time of the last check and the force flag only.
    It neither creates nor deletes a task. *)
Theorem X18_settings_untouched (draw : Z) (envs : list LoopEnv)
    (o : ESP32_AutoOTA) :
  settings (object (otaTask draw envs o)) = settings o
  /\ count is_task_control (trace (otaTask draw envs o)) = 0%nat.
Proof.
  destruct (task_grammar draw envs o) as (Hs & H). split; [exact Hs|].
  apply count_none. eapply Forall_impl; [exact H|]. cbv beta.
  intros e He. inversion He; reflexivity.
Qed.

(** ** Waits and turns that make no check *)

Lemma int32_small z : - 2 ^ 31 <= z < 2 ^ 31 -> int32 z = z.
Proof. intros H. unfold int32. rewrite Z.mod_small; lia. Qed.

Lemma uint32_small z : 0 <= z < 2 ^ 32 -> uint32 z = z.
Proof. intros H. unfold uint32, wrap. apply Z.mod_small. lia. Qed.

Lemma random_range draw lo hi : lo < hi -> lo <= random draw lo hi < hi.
Proof.
  intros H. unfold random.
  destruct (hi <=? lo) eqn:E; z_tests; [lia|].
  pose proof (Z.mod_pos_bound draw (hi - lo)). lia.
Qed.

Lemma random_degenerate draw lo hi : hi <= lo -> random draw lo hi = lo.
Proof.
  intros H. unfold random. destruct (hi <=? lo) eqn:E; z_tests; [reflexivity|lia].
Qed.

(** The wait that ends a turn with connectivity, from the interval. *)
Lemma jitter_bounds interval draw :
  0 <= interval -> interval + interval / 10 < 2 ^ 32 ->
  let d := uint32 (interval
                   + random draw (int32 (- (interval / 10)))
                       (int32 (interval / 10))) in
  interval - interval / 10 <= d
  /\ (d < interval + interval / 10 \/ (interval < 10 /\ d = interval)).
Proof.
  intros H0 Hmax.
  assert (Hv : 0 <= interval / 10) by (apply Z.div_pos; lia).
  assert (Hv2 : interval / 10 < 2 ^ 31).
  { apply Z.div_lt_upper_bound; lia. }
  assert (Hv3 : interval / 10 <= interval)
    by (apply Z.div_le_upper_bound; lia).
  cbv zeta. rewrite !int32_small by lia.
  destruct (Z.eq_dec (interval / 10) 0) as [Hz|Hnz].
  - rewrite Hz. simpl. rewrite random_degenerate by lia.
    rewrite uint32_small by lia.
    split; [lia|]. right. split; [|lia].
    destruct (Z_lt_le_dec interval 10) as [Hlt|Hge]; [exact Hlt|].
    assert (1 <= interval / 10) by (apply Z.div_le_lower_bound; lia). lia.
  - assert (Hr := random_range draw (- (interval / 10)) (interval / 10)
                    ltac:(lia)).
    rewrite uint32_small by lia. lia.
Qed.

Lemma interval_frame env o :
  _checkInterval (object (checkForUpdate env o)) = _checkInterval o.
Proof.
  apply (preserves_checkForUpdate (fun x => _checkInterval x = _checkInterval o)).
  - intros x error H. destruct x; exact H.
  - reflexivity.
Qed.

Lemma stamped_schedule T v o :
  _checkInterval (set_lastCheckTime T (set_retryCount v o)) = _checkInterval o
  /\ _lastCheckTime (set_lastCheckTime T (set_retryCount v o)) = T
  /\ _checkInterval (set_forceCheckFlag false o) = _checkInterval o.
Proof. destruct o; repeat split. Qed.

Lemma otaTask_turn_tail env o :
  le_wifi env = true ->
  wp (otaTask_turn env) o (fun _ o' t =>
    exists pre,
      t = pre ++ [EvTaskDelay (next_wait (le_random env) (_checkInterval o'))]).
Proof.
  intros Hwifi. unfold otaTask_turn. rewrite Hwifi. simpl negb. cbv iota.
  wp_walk.
  all: try (apply wp_run; cbv beta; wp_walk).
  all: eexists; unfold next_wait;
    rewrite ?app_nil_r; repeat rewrite app_assoc; reflexivity.
Qed.

Lemma otaTask_turn_settings env o :
  settings (object (otaTask_turn env o)) = settings o.
Proof. apply (otaTask_turn_confined o env o). reflexivity. Qed.

Lemma otaTask_turn_offline env o :
  le_wifi env = false ->
  wp (otaTask_turn env) o (fun r o' t =>
    r = None /\ o' = o /\ foreground t = [EvTaskDelay 10000]).
Proof.
  intros Hwifi. unfold otaTask_turn. rewrite Hwifi. simpl negb. cbv iota.
  wp_walk. repeat split. fg_views. reflexivity.
Qed.

Lemma otaTask_turn_idle env o :
  le_wifi env = true ->
  check_due env o = false ->
  wp (otaTask_turn env) o (fun r o' t =>
    r = None /\ o' = o
    /\ foreground t
       = [EvTaskDelay (next_wait (le_random env) (_checkInterval o))]).
Proof.
  intros Hwifi Hdue. unfold otaTask_turn. rewrite Hwifi. simpl negb. cbv iota.
  unfold check_due in Hdue.
  wp_step. wp_step. rewrite Hdue. wp_walk.
  repeat split.
Qed.

(** X12: a turn of the task loop without connectivity makes no check and
    no request, leaves the object (and so the check timer and the force
    flag) as it was, and waits 10000 ms. *)
Theorem X12_offline_turn (env : LoopEnv) (o : ESP32_AutoOTA) :
  le_wifi env = false ->
  result (otaTask_turn env o) = None
  /\ object (otaTask_turn env o) = o
  /\ foreground (trace (otaTask_turn env o)) = [EvTaskDelay 10000].
Proof. intros Hwifi. apply (otaTask_turn_offline env o Hwifi). Qed.

(** X13: a turn with connectivity that does not restart the device
    ends by waiting. For an interval of at least 10 ms the wait is at
    least the interval less a tenth and less than the interval plus a
    tenth; for a shorter interval it is the interval itself. The interval
    plus a tenth has to fit 32 bits. *)
Theorem X13_jittered_wait (env : LoopEnv) (o : ESP32_AutoOTA) :
  le_wifi env = true ->
  restarts (trace (otaTask_turn env o)) = 0%nat ->
  0 <= _checkInterval o ->
  _checkInterval o + _checkInterval o / 10 < 2 ^ 32 ->
  exists pre d,
    trace (otaTask_turn env o) = pre ++ [EvTaskDelay d]
    /\ _checkInterval o - _checkInterval o / 10 <= d
    /\ (d < _checkInterval o + _checkInterval o / 10
        \/ (_checkInterval o < 10 /\ d = _checkInterval o)).
Proof.
  intros Hwifi _ H0 Hmax.
  destruct (otaTask_turn_tail env o Hwifi) as (pre & Ht).
  pose proof (otaTask_turn_settings env o) as Hs.
  apply settings_fields in Hs. destruct Hs as (_ & _ & _ & Hi & _).
  rewrite Hi in Ht.
  exists pre, (next_wait (le_random env) (_checkInterval o)).
  split; [exact Ht|].
  unfold next_wait, portTICK_PERIOD_MS. rewrite Z.div_1_r.
  apply jitter_bounds; assumption.
Qed.

Lemma otaTask_actions draw envs o :
  wp (otaTask draw envs) o (fun r o' t =>
    r = result (otaTask_loop envs o)
    /\ o' = object (otaTask_loop envs o)
    /\ foreground t
       = EvTaskDelay (getRandomDelay draw o / portTICK_PERIOD_MS)
         :: foreground (trace (otaTask_loop envs o))).
Proof.
  unfold otaTask. wp_walk. apply wp_run.
  repeat split. fg_views. rewrite ?app_nil_r. reflexivity.
Qed.

(** X14: the task starts by waiting, before any action of the loop.
    With bounds below [2^31] the wait is at least the minimum and less
    than the maximum when they are in order, and it is the minimum when
    the maximum is not above it. *)
Theorem X14_initial_delay (draw : Z) (envs : list LoopEnv) (o : ESP32_AutoOTA) :
  0 <= _minRandomDelay o < 2 ^ 31 ->
  0 <= _maxRandomDelay o < 2 ^ 31 ->
  exists d,
    foreground (trace (otaTask draw envs o))
    = EvTaskDelay d :: foreground (trace (otaTask_loop envs o))
    /\ (_minRandomDelay o < _maxRandomDelay o ->
        _minRandomDelay o <= d < _maxRandomDelay o)
    /\ (_maxRandomDelay o <= _minRandomDelay o -> d = _minRandomDelay o).
Proof.
  intros Hmin Hmax.
  destruct (otaTask_actions draw envs o) as (_ & _ & Ht).
  exists (getRandomDelay draw o / portTICK_PERIOD_MS).
  split; [exact Ht|].
  unfold portTICK_PERIOD_MS, getRandomDelay. rewrite Z.div_1_r.
  rewrite !int32_small by lia.
  split.
  - intros Hlt.
    pose proof (random_range draw _ _ Hlt) as Hr.
    rewrite uint32_small by lia. exact Hr.
  - intros Hge. rewrite random_degenerate by exact Hge.
    apply uint32_small. lia.
Qed.

(** X15: after a turn that made a check, a later turn that comes before
    the interval has passed, with no [forceCheck] in between, makes no
    check and no request and leaves the object as it was. *)
Theorem X15_rate_limit (env env' : LoopEnv) (o : ESP32_AutoOTA) :
  le_wifi env = true ->
  check_due env o = true ->
  le_wifi env' = true ->
  0 <= le_millis env' - uint32 (le_millis_after env) < _checkInterval o ->
  result (otaTask_turn env' (object (otaTask_turn env o))) = None
  /\ object (otaTask_turn env' (object (otaTask_turn env o)))
     = object (otaTask_turn env o)
  /\ count is_http_get
       (trace (otaTask_turn env' (object (otaTask_turn env o)))) = 0%nat.
Proof.
  intros Hwifi Hdue Hwifi' Hsoon.
  destruct (otaTask_turn_checked env o Hwifi Hdue) as (_ & Ho & _).
  set (o1 := object (otaTask_turn env o)) in *.
  assert (Hidle : check_due env' o1 = false).
  { unfold check_due. rewrite Ho.
    match goal with
    | |- context [set_lastCheckTime ?T (set_retryCount ?v ?x)] =>
        destruct (stamped_fields T v x) as (_ & _ & Hf & _);
        destruct (stamped_schedule T v x) as (Hi & Hl & _)
    end.
    rewrite Hf, Hi, Hl.
    destruct (checkForUpdate_frame (le_check env) (set_forceCheckFlag false o))
      as (_ & _ & Hkeep & _).
    rewrite Hkeep, interval_frame.
    destruct (flag_cleared_fields o) as (_ & _ & -> & _).
    destruct (stamped_schedule 0 0 o) as (_ & _ & ->).
    simpl. apply Z.leb_gt.
    unfold uint32 at 1, wrap.
    pose proof (Z.mod_le (le_millis env' - uint32 (le_millis_after env))
                  (2 ^ 32) ltac:(lia) ltac:(lia)).
    lia. }
  destruct (otaTask_turn_idle env' o1 Hwifi' Hidle) as (Hr & Hsame & Ht).
  split; [exact Hr|]. split; [exact Hsame|].
  rewrite (count_foreground is_http_get), Ht
    by (intros e He; destruct e; try reflexivity; discriminate).
  reflexivity.
Qed.

Lemma retry_below_ceiling maxRetries c r :
  0 <= c -> (c = 0 \/ c < maxRetries) ->
  0 <= retry_policy maxRetries c r
  /\ (retry_policy maxRetries c r = 0 \/ retry_policy maxRetries c r < maxRetries).
Proof.
  intros H0 Hc. unfold retry_policy.
  destruct r as [[| | |]|]; try (split; [lia|left; reflexivity]).
  - destruct (maxRetries <=? c + 1) eqn:E; z_tests; lia.
  - split; [exact H0|exact Hc].
Qed.

(** X16: along any run of the task loop the failure counter stays
    below [maxRetries], or at zero, if it started so; the ceiling itself
    is not changed by the loop. *)
Theorem X16_counter_below_ceiling (envs : list LoopEnv) (o : ESP32_AutoOTA) :
  0 <= _retryCount o <= 254 ->
  0 <= _maxRetries o <= 255 ->
  _retryCount o = 0 \/ _retryCount o < _maxRetries o ->
  0 <= _retryCount (object (otaTask_loop envs o))
  /\ (_retryCount (object (otaTask_loop envs o)) = 0
      \/ _retryCount (object (otaTask_loop envs o)) < _maxRetries o)
  /\ _maxRetries (object (otaTask_loop envs o)) = _maxRetries o.
Proof.
  revert o. induction envs as [|env rest IH]; intros o Hc Hm Hbelow.
  - change (object (otaTask_loop [] o)) with o.
    repeat split; [lia|exact Hbelow].
  - simpl. rewrite !bind_object. simpl.
    destruct (otaTask_turn_counter env o Hc Hm) as (Hstep & Hmax & Hrange).
    destruct (retry_below_ceiling (_maxRetries o) (_retryCount o)
                (result (otaTask_turn env o)) ltac:(lia) Hbelow) as (_ & Hb).
    rewrite <- Hstep in Hb.
    destruct (IH (object (otaTask_turn env o))) as (G0 & Gb & Gm).
    + exact Hrange.
    + rewrite Hmax. exact Hm.
    + rewrite Hmax. exact Hb.
    + unfold object at 1 3 5. simpl.
      fold (object (otaTask_loop rest (object (otaTask_turn env o)))).
      rewrite Hmax in Gb, Gm. repeat split; assumption.
Qed.

Lemma configured_urls fw_url ver_url o :
  let o2 := object (setVersionURL ver_url (object (setFirmwareURL fw_url o))) in
  _isRunning o2 = _isRunning o
  /\ _firmwareURL o2
     = <[(sizeof_firmwareURL - 1)%nat := NUL]>
         (strncpy (_firmwareURL o) fw_url (sizeof_firmwareURL - 1))
  /\ _versionURL o2
     = <[(sizeof_versionURL - 1)%nat := NUL]>
         (strncpy (_versionURL o) ver_url (sizeof_versionURL - 1)).
Proof. destruct o; repeat split. Qed.

Lemma strlen_stored dst src n :
  length dst = S n ->
  strlen (<[n := NUL]> (strncpy dst src n)) = 0 <-> c_str src = [] \/ n = 0%nat.
Proof.
  intros Hlen. unfold strlen.
  destruct (stored_terminated dst src n Hlen) as (_ & ->).
  destruct (c_str src) as [|c rest], n; simpl; split; intros H; auto; try lia.
  destruct H; [discriminate|lia].
Qed.

(** X19: on an object whose arrays are well formed, [begin] called
    after [setFirmwareURL] and [setVersionURL] starts the task exactly
    when the agent was not running, neither URL argument was the empty
    string, the network is up and the task can be created. *)
Theorem X19_begin_after_configure (o : ESP32_AutoOTA)
    (fw_url ver_url : list ascii) (wifi : bool) (task : option TaskHandle_t) :
  buffers_ok o ->
  result (begin wifi task
            (object (setVersionURL ver_url
                       (object (setFirmwareURL fw_url o))))) = true
  <-> _isRunning o = false /\ c_str fw_url <> [] /\ c_str ver_url <> []
      /\ wifi = true /\ task <> None.
Proof.
  intros ((Hfw & _) & (Hver & _) & _).
  destruct (configured_urls fw_url ver_url o) as (Hrun & Hf & Hv).
  pose proof (begin_spec wifi task
                (object (setVersionURL ver_url
                           (object (setFirmwareURL fw_url o))))) as Hb.
  unfold wp in Hb. rewrite Hrun, Hf, Hv in Hb.
  pose proof (strlen_stored (_firmwareURL o) fw_url 255 Hfw) as Sf.
  pose proof (strlen_stored (_versionURL o) ver_url 255 Hver) as Sv.
  change (sizeof_firmwareURL - 1)%nat with 255%nat in Hb.
  change (sizeof_versionURL - 1)%nat with 255%nat in Hb.
  destruct (result (begin wifi task _)).
  - destruct Hb as (H1 & H2 & H3 & H4 & H5 & _).
    split; [|reflexivity]. intros _.
    repeat split; try assumption.
    + intros He. apply H2, Sf. left. exact He.
    + intros He. apply H3, Sv. left. exact He.
  - destruct Hb as ([H1 | [H2 | [H3 | [H4 | H5]]]] & _);
      (split; [discriminate|]); intros (G1 & G2 & G3 & G4 & G5);
      try congruence.
    + apply Sf in H2 as [H2|H2]; [contradiction|discriminate].
    + apply Sv in H3 as [H3|H3]; [contradiction|discriminate].
Qed.

(** ** The stored error text *)

Lemma performUpdate_object fw o :
  wp (performUpdate fw) o (fun done o' _ =>
    match executor_error fw with
    | Some error => done = false /\ o' = record_error error o
    | None => done = true /\ o' = o
    end).
Proof.
  unfold performUpdate. wp_walk.
  all: unfold executor_error.
  all: repeat match goal with
              | H : (_ =? _) = _ |- _ => rewrite H
              | H : (_ <? _) = _ |- _ => rewrite H
              | H : fr_canBegin _ = _ |- _ => rewrite H
              | H : fr_end _ = _ |- _ => rewrite H
              | H : fr_isFinished _ = _ |- _ => rewrite H
              end.
  all: split; reflexivity.
Qed.

Lemma checkForUpdate_object env o :
  wp (checkForUpdate env) o (fun r o' _ =>
    match check_error env o with
    | Some error => r = Failed /\ o' = record_error error o
    | None => r <> Failed /\ o' = o
    end).
Proof.
  unfold checkForUpdate. wp_walk.
  all: try (eapply wp_use; [apply performUpdate_object|]; cbv beta;
            intros done o' t' Hcase; wp_walk).
  all: unfold check_error.
  all: repeat match goal with
              | H : (_ =? _) = _ |- _ => rewrite H
              | H : String_equals _ _ = _ |- _ => rewrite H
              | H : _ && _ = _ |- _ => rewrite H
              end.
  all: try (split; [discriminate || reflexivity | reflexivity]).
  all: destruct (executor_error (ce_firmware env));
    destruct Hcase as (-> & ->); split; (discriminate || reflexivity).
Qed.

Lemma literal_error_text (msg : string) o :
  length (_lastError o) = sizeof_lastError ->
  (length (c_str (lit msg)) < 64)%nat ->
  c_str (_lastError (record_error (lit msg) o)) = c_str (lit msg).
Proof. intros Hlen Hshort. apply record_error_text; assumption. Qed.

Lemma formatted_error_text (prefix : string) (code : Z) c rest o :
  lit prefix = c :: rest ->
  Ascii.eqb c NUL = false ->
  length (_lastError o) = sizeof_lastError ->
  c_str (_lastError (record_error (snprintf 64 (lit prefix ++ fmt_d code)) o))
  = error_text prefix code.
Proof.
  intros Hp Hc Hlen. unfold error_text.
  apply record_error_text; [exact Hlen|].
  apply (formatted_error prefix (fmt_d code) c rest Hp Hc).
Qed.

(** X20: the text a failed check leaves in [_lastError], by the first
    condition that fails: the version request, then the download status,
    the content length, the flash space, the finalize step and the
    completion test, in this order. A check that does not fail leaves the
    stored text as it was: an earlier error is not cleared. *)
Theorem X20_error_texts (env : CheckEnv) (o : ESP32_AutoOTA) :
  length (_lastError o) = sizeof_lastError ->
  (vr_code (ce_version env) <> HTTP_CODE_OK ->
   c_str (_lastError (object (checkForUpdate env o)))
   = lit "Version check failed")
  /\ (proceeds env o ->
      (fr_code (ce_firmware env) <> HTTP_CODE_OK ->
       c_str (_lastError (object (checkForUpdate env o)))
       = error_text "Download failed: HTTP " (fr_code (ce_firmware env)))
      /\ (fr_code (ce_firmware env) = HTTP_CODE_OK ->
          (fr_size (ce_firmware env) <= 0 ->
           c_str (_lastError (object (checkForUpdate env o)))
           = lit "Content length is zero")
          /\ (0 < fr_size (ce_firmware env) ->
              (fr_canBegin (ce_firmware env) = false ->
               c_str (_lastError (object (checkForUpdate env o)))
               = lit "Not enough space for OTA")
              /\ (fr_canBegin (ce_firmware env) = true ->
                  (fr_end (ce_firmware env) = false ->
                   c_str (_lastError (object (checkForUpdate env o)))
                   = error_text "Update failed: error "
                       (fr_getError (ce_firmware env)))
                  /\ (fr_end (ce_firmware env) = true ->
                      fr_isFinished (ce_firmware env) = false ->
                      c_str (_lastError (object (checkForUpdate env o)))
                      = lit "Update not finished")))))
  /\ (result (checkForUpdate env o) <> Failed ->
      _lastError (object (checkForUpdate env o)) = _lastError o).
Proof.
  intros Hlen.
  pose proof (checkForUpdate_object env o) as H. unfold wp in H.
  unfold check_error, executor_error in H.
  split; [|split].
  - intros Hcode. apply Z.eqb_neq in Hcode. rewrite Hcode in H.
    destruct H as (_ & ->). apply (literal_error_text "Version check failed"); [exact Hlen|cbn; lia].
  - intros Hp. apply proceeds_decided in Hp as (E1 & E2 & E3).
    rewrite E1, E2, E3 in H.
    split.
    + intros Hc. apply Z.eqb_neq in Hc. rewrite Hc in H.
      destruct H as (_ & ->).
      apply (formatted_error_text "Download failed: HTTP " _ "D"%char
               (lit "ownload failed: HTTP "));
        [reflexivity|reflexivity|exact Hlen].
    + intros Hc. apply Z.eqb_eq in Hc. rewrite Hc in H. split.
      * intros Hs. apply Z.ltb_ge in Hs. rewrite Hs in H.
        destruct H as (_ & ->).
        apply (literal_error_text "Content length is zero");
          [exact Hlen|cbn; lia].
      * intros Hs. apply Z.ltb_lt in Hs. rewrite Hs in H. split.
        -- intros Hb. rewrite Hb in H. destruct H as (_ & ->).
           apply (literal_error_text "Not enough space for OTA");
             [exact Hlen|cbn; lia].
        -- intros Hb. rewrite Hb in H. split.
           ++ intros He. rewrite He in H. destruct H as (_ & ->).
              apply (formatted_error_text "Update failed: error " _ "U"%char
                       (lit "pdate failed: error "));
                [reflexivity|reflexivity|exact Hlen].
           ++ intros He Hf. rewrite He, Hf in H. destruct H as (_ & ->).
              apply (literal_error_text "Update not finished");
                [exact Hlen|cbn; lia].
  - intros Hok.
    destruct (vr_code (ce_version env) =? HTTP_CODE_OK);
      [destruct (String_equals _ _);
       [|destruct (_ && _);
         [|destruct (fr_code (ce_firmware env) =? HTTP_CODE_OK);
           [destruct (0 <? fr_size (ce_firmware env));
            [destruct (fr_canBegin (ce_firmware env));
             [destruct (fr_end (ce_firmware env));
              [destruct (fr_isFinished (ce_firmware env))|]|]|]|]]]|].
    all: destruct H as (Hr & Ho); try contradiction.
    all: rewrite Ho; reflexivity.
Qed.

(** ** The rollout percentage *)

Lemma staged_percentage enable p o :
  0 <= p <= 255 ->
  _rolloutPercentage (object (setStaggeredRollout enable p o)) = Z.min p 100.
Proof.
  intros Hp. destruct o; simpl.
  unfold uint8, wrap, constrain. rewrite (Z.mod_small p) by lia.
  destruct (p <? 0) eqn:E0; [apply Z.ltb_lt in E0; lia|].
  destruct (100 <? p) eqn:E1; z_tests; rewrite Z.mod_small; lia.
Qed.

(** X21: raising the rollout percentage never takes a device out of
    the group: a device eligible at [p] is eligible at every larger
    percentage given to [setStaggeredRollout], and from 100 on every
    device is eligible. The argument has to fit the [uint8_t] parameter. *)
Theorem X21_rollout_monotone (mac : list Byte.byte) (o : ESP32_AutoOTA)
    (enable enable' : bool) (p p' : Z) :
  0 <= p <= p' ->
  p' <= 255 ->
  (shouldUpdateNow mac (object (setStaggeredRollout enable p o)) = true ->
   shouldUpdateNow mac (object (setStaggeredRollout enable' p' o)) = true)
  /\ (100 <= p' ->
      shouldUpdateNow mac (object (setStaggeredRollout enable' p' o)) = true).
Proof.
  intros Hp Hmax. unfold shouldUpdateNow, shouldUpdateNow_with.
  rewrite !staged_percentage by lia.
  assert (Hb : 0 <= getDeviceHash mac mod 100 < 100)
    by (apply Z.mod_pos_bound; lia).
  unfold uint8, wrap. rewrite (Z.mod_small (getDeviceHash mac mod 100)) by lia.
  split.
  - intros H. apply Z.ltb_lt in H. apply Z.ltb_lt. lia.
  - intros H. apply Z.ltb_lt. lia.
Qed.

(** ** Instances *)

Lemma X2_begin_refusals_witness :
  c_str (_lastError (object (begin true None configured)))
  = lit "Failed to create task".
Proof.
  destruct (X2_begin_refusals true None configured) as [_|_];
    reflexivity.
Defined.

Lemma X3_flash_guard_witness :
  proceeds (update_env good_firmware) running.
Proof.
  destruct (X3_flash_guard (update_env good_firmware) running
              (EvUpdateBegin 300)) as (H & _).
  - vm_compute. repeat (first [left; reflexivity | right]).
  - reflexivity.
  - exact H.
Defined.

Lemma X4_connections_closed_witness :
  count is_http_end (trace (checkForUpdate (check_env 404 []) running))
  = 1%nat.
Proof.
  rewrite (X4_connections_closed (check_env 404 []) running).
  - reflexivity.
  - vm_compute. discriminate.
Defined.

Lemma X5_update_protocol_witness :
  exists pre,
    trace (checkForUpdate (update_env good_firmware) running)
    = pre ++ [EvRestart]
    /\ restarts pre = 0%nat.
Proof.
  destruct (X5_update_protocol (update_env good_firmware) running) as (H & _).
  - repeat split; [vm_compute; discriminate | left; reflexivity].
  - intros [H | [H | [H | [H | H]]]]; vm_compute in H;
      first [discriminate | apply H; reflexivity].
  - exact H.
Defined.

Lemma X8_silent_without_debug_witness :
  count is_serial
    (trace (otaTask 5 [loop_env 400000 (update_env good_firmware)] observed))
  = 0%nat.
Proof.
  apply (X8_silent_without_debug 5
           [loop_env 400000 (update_env good_firmware)] observed).
  reflexivity.
Defined.

Lemma X12_offline_turn_witness :
  foreground (trace (otaTask_turn offline_turn running)) = [EvTaskDelay 10000].
Proof.
  destruct (X12_offline_turn offline_turn running) as (_ & _ & H).
  - reflexivity.
  - exact H.
Defined.

Lemma X13_jittered_wait_witness :
  exists pre d,
    trace (otaTask_turn (loop_env 400000 newer_version) running)
    = pre ++ [EvTaskDelay d]
    /\ 270000 <= d < 330000.
Proof.
  destruct (X13_jittered_wait (loop_env 400000 newer_version) running)
    as (pre & d & Ht & Hlo & Hhi).
  - reflexivity.
  - reflexivity.
  - vm_compute. discriminate.
  - vm_compute. reflexivity.
  - exists pre, d. split; [exact Ht|].
    change (_checkInterval running) with 300000 in Hlo, Hhi.
    change (300000 - 300000 / 10) with 270000 in Hlo.
    change (300000 + 300000 / 10) with 330000 in Hhi.
    lia.
Defined.

Lemma X14_initial_delay_witness :
  exists d,
    foreground (trace (otaTask 5 [] running)) = [EvTaskDelay d]
    /\ 60000 <= d < 180000.
Proof.
  destruct (X14_initial_delay 5 [] running) as (d & Ht & Hin & _).
  - vm_compute. split; [discriminate | reflexivity].
  - vm_compute. split; [discriminate | reflexivity].
  - exists d. split; [exact Ht|]. apply Hin. vm_compute. reflexivity.
Defined.

Lemma X15_rate_limit_witness :
  result (otaTask_turn (failing_at 500000)
            (object (otaTask_turn (failing_at 400000) running)))
  = None.
Proof.
  destruct (X15_rate_limit (failing_at 400000) (failing_at 500000) running)
    as (H & _).
  - reflexivity.
  - reflexivity.
  - reflexivity.
  - vm_compute. split; [discriminate | reflexivity].
  - exact H.
Defined.

Lemma X16_counter_below_ceiling_witness :
  _retryCount (object (otaTask_loop three_failures running)) = 0
  \/ _retryCount (object (otaTask_loop three_failures running))
     < _maxRetries running.
Proof.
  destruct (X16_counter_below_ceiling three_failures running) as (_ & H & _).
  - vm_compute. split; discriminate.
  - vm_compute. split; discriminate.
  - left. reflexivity.
  - exact H.
Defined.

Lemma X17_single_slot_witness :
  error_calls
    (trace (checkForUpdate (check_env 404 [])
              (object (onUpdateError (Some 9%nat)
                         (object (onUpdateError (Some 5%nat) running))))))
  = [(9%nat, lit "Version check failed")].
Proof.
  apply (X17_single_slot (check_env 404 []) running (Some 5%nat) (Some 9%nat)).
  vm_compute. discriminate.
Defined.

Lemma X19_begin_after_configure_witness :
  result (begin true (Some 1%nat)
            (object (setVersionURL (lit "http://updates.local/v.txt")
                       (object (setFirmwareURL (lit "http://updates.local/f.bin")
                                  configured)))))
  = true.
Proof.
  apply (X19_begin_after_configure configured).
  - apply (reachable_buffers_ok [] [] [] [] sample_setup).
  - repeat split; discriminate.
Defined.

Lemma X21_rollout_monotone_witness :
  shouldUpdateNow sample_mac (object (setStaggeredRollout true 90 configured))
  = true.
Proof.
  destruct (X21_rollout_monotone sample_mac configured true true 80 90)
    as (H & _).
  - vm_compute. split; discriminate.
  - vm_compute. discriminate.
  - apply H. reflexivity.
Defined.

Lemma X20_error_texts_witness :
  c_str (_lastError (object (checkForUpdate newer_version running)))
  = lit "Download failed: HTTP 404".
Proof.
  destruct (X20_error_texts newer_version running) as (_ & H & _).
  - reflexivity.
  - destruct H as (H & _).
    + repeat split; [vm_compute; discriminate | left; reflexivity].
    + apply H. vm_compute. discriminate.
Defined.
